(** * go-firmata: the 7-bit codec and the OneWire layer

    A shallow embedding of [util.go] and [onewire.go].

    Conventions.  A Go [byte] is a [Z] in [0, 256); every operation that can
    leave that range in Go (a left shift) is written with its truncation.
    A slice is a [list Z]; a nil slice is the empty list, which has the same
    length and the same behaviour under indexing and slicing.  A run of Go
    code returns a value, panics (index or slice bounds out of range), waits
    for ever on a channel, or, for a loop unfolded with fuel, runs out of
    fuel; the last case is shown not to occur. *)

From Stdlib Require Import ZArith List Lia Bool QArith Btauto.
From coqutil Require Import Z.bitblast.
Import ListNotations.
Local Open Scope Z_scope.

(** ** Bytes *)

Definition is_byte (z : Z) : Prop := 0 <= z < 256.

(** [byte(x)]: conversion of an integer to [byte] keeps the low 8 bits. *)
Definition byte_of (z : Z) : Z := z mod 256.

(** [x << s] on a [byte]. *)
Definition shl8 (x s : Z) : Z := byte_of (Z.shiftl x s).

(** [x >> s] on a [byte] (unsigned, so a logical shift). *)
Definition shr8 (x s : Z) : Z := Z.shiftr x s.

(** The most significant bit of a byte is zero. *)
Definition msb_clear (z : Z) : Prop := is_byte z /\ Z.testbit z 7 = false.

(** ** Outcome of running Go code *)

Inductive run (A : Type) : Type :=
| Value (a : A)
| IndexPanic
| Blocked
| OutOfFuel.
Arguments Value {A} a.
Arguments IndexPanic {A}.
Arguments Blocked {A}.
Arguments OutOfFuel {A}.

Definition bind {A B : Type} (m : run A) (k : A -> run B) : run B :=
  match m with
  | Value a => k a
  | IndexPanic => IndexPanic
  | Blocked => Blocked
  | OutOfFuel => OutOfFuel
  end.

Notation "x <- m ;; k" := (bind m (fun x => k))
  (at level 61, m at next level, right associativity).
Notation "' p <- m ;; k" := (bind m (fun x => let p := x in k))
  (at level 61, p pattern, m at next level, right associativity).

Definition of_index {A : Type} (o : option A) : run A :=
  match o with
  | Some a => Value a
  | None => IndexPanic
  end.

(** [s[i]] on a slice: [None] stands for the runtime panic. *)
Definition index (s : list Z) (i : Z) : option Z :=
  if i <? 0 then None else nth_error s (Z.to_nat i).

Definition len (s : list Z) : Z := Z.of_nat (length s).

(** [s[n:]] and [s[:n]]; out of bounds they panic. *)
Definition slice_from (s : list Z) (n : Z) : option (list Z) :=
  if (0 <=? n) && (n <=? len s) then Some (skipn (Z.to_nat n) s) else None.

Definition slice_to (s : list Z) (n : Z) : option (list Z) :=
  if (0 <=? n) && (n <=? len s) then Some (firstn (Z.to_nat n) s) else None.

(** [x << s] on a [uint16], and [uint16] addition and subtraction. *)
Definition shl16 (x s : Z) : Z := (Z.shiftl x s) mod 65536.
Definition add16 (x y : Z) : Z := (x + y) mod 65536.
Definition sub16 (x y : Z) : Z := (x - y) mod 65536.

(** ** util.go *)

Definition from7Bit (b0 b1 : Z) : Z :=
  Z.lor (Z.land b0 0x7F) (shl8 (Z.land b1 0x7F) 7).

Definition to7Bit (i : Z) : list Z :=
  [Z.land i 0x7f; Z.land (shr8 i 7) 0x7f].

Definition intto7Bit (i : Z) : list Z :=
  [byte_of (Z.land i 0x7f);
   byte_of (Z.land (Z.shiftr i 7) 0x7f);
   byte_of (Z.land (Z.shiftr i 14) 0x7f)].

(** The loop of [From7BitMulti].  One unit of fuel is one evaluation of the
    loop condition. *)
Fixpoint from7_loop (fuel : nat) (data : list Z) (i shift : Z) (res : list Z)
  : run (list Z) :=
  match fuel with
  | O => OutOfFuel
  | S fuel' =>
      if i <? len data - 3 then
        let i := if (0 <? i) && (i mod 7 =? 0) then i + 1 else i in
        let j := i + 2 in
        match index data j, index data (j + 1) with
        | Some dj, Some dj1 =>
            let d := shr8 dj shift in
            let d := Z.lor d (shl8 dj1 (7 - shift)) in
            let shift := shift + 1 in
            let shift := if 6 <? shift then 0 else shift in
            from7_loop fuel' data (i + 1) shift (res ++ [d])
        | _, _ => IndexPanic
        end
      else Value res
  end.

Definition From7BitMulti (data : list Z) : run (list Z) :=
  from7_loop (S (length data)) data 0 0 [].

(** The loop of [To7BitMulti]; [for i = 0; i < len(data); i++] reads
    [data[i]] in order, which is recursion on the list. *)
Fixpoint to7_loop (data : list Z) (shift prev : Z) (res : list Z) : list Z :=
  match data with
  | [] => if 0 <? shift then res ++ [prev] else res
  | b :: rest =>
      if shift =? 0 then
        to7_loop rest (shift + 1) (shr8 b 7) (res ++ [Z.land b 0x7f])
      else
        let res := res ++ [Z.lor (Z.land (shl8 b shift) 0x7f) prev] in
        if shift =? 6 then
          to7_loop rest 0 prev (res ++ [shr8 b 1])
        else
          let shift := shift + 1 in
          to7_loop rest shift (shr8 b (8 - shift)) res
  end.

Definition To7BitMulti (data : list Z) : list Z := to7_loop data 0 0 [].


(** ** onewire.go *)

(** The constants of the package that the two files use but do not declare:
    the OneWire command bits, the SysEx command of the OneWire feature and
    the sub-command of a configuration request.  They are parameters of the
    model. *)
Record Protocol : Type := {
  OW_RESET : Z;
  OW_SKIP : Z;
  OW_SELECT : Z;
  OW_READ : Z;
  OW_DELAY : Z;
  OW_WRITE : Z;
  SysExOneWire : Z;
  OneWireConfig : Z
}.

(** The values of the Firmata OneWire protocol, for concrete runs.  The READ
    bit is the [0x8] that [OneWireCommand] tests before it waits for a
    reply. *)
Definition firmata : Protocol := {|
  OW_RESET := 0x01;
  OW_SKIP := 0x02;
  OW_SELECT := 0x04;
  OW_READ := 0x08;
  OW_DELAY := 0x10;
  OW_WRITE := 0x20;
  SysExOneWire := 0x73;
  OneWireConfig := 0x41
|}.

(** The errors of the package; the Go code builds them with [fmt.Errorf]. *)
Inductive error : Type :=
| TransportError
| CrcMismatch (received calculated : Z) (scratch : list Z)
| ResolutionOutOfRange.

Module OneWireRequest.

Record t : Type := mk {
  Command : Z;
  Address : list Z;
  ReadCount : Z;
  CorrelationId : Z;
  DelayMs : Z;
  Data : list Z
}.

(** [var req OneWireRequest] *)
Definition zero : t := mk 0 [] 0 0 0 [].

Section WithProtocol.
Variable K : Protocol.

Definition Encode (r : t) : list Z :=
  let d := [] in
  let d := if 0 <? Z.land (Command r) (OW_SELECT K)
           then d ++ Address r else d in
  let d := if 0 <? Z.land (Command r) (OW_READ K) then
             let d := d ++ [byte_of (Z.land (ReadCount r) 0xff)] in
             let d := d ++ [byte_of (Z.land (Z.shiftr (ReadCount r) 8) 0xff)] in
             let d := d ++ [byte_of (Z.land (CorrelationId r) 0xff)] in
             d ++ [byte_of (Z.land (Z.shiftr (CorrelationId r) 8) 0xff)]
           else d in
  let d := if 0 <? Z.land (Command r) (OW_DELAY K) then
             let d := d ++ [byte_of (Z.land (DelayMs r) 0xff)] in
             let d := d ++ [byte_of (Z.land (Z.shiftr (DelayMs r) 8) 0xff)] in
             let d := d ++ [byte_of (Z.land (Z.shiftr (DelayMs r) 16) 0xff)] in
             d ++ [byte_of (Z.land (Z.shiftr (DelayMs r) 24) 0xff)]
           else d in
  let d := if 0 <? Z.land (Command r) (OW_WRITE K)
           then d ++ Data r else d in
  To7BitMulti d.

End WithProtocol.

End OneWireRequest.

(** The inner loop of [OneWireCrc8]: eight rounds on one byte. *)
Fixpoint crc8_rounds (n : nat) (crc b : Z) : Z :=
  match n with
  | O => crc
  | S n' =>
      let mix := Z.land (Z.lxor crc b) 0x1 in
      let crc := shr8 crc 1 in
      let crc := if 0 <? mix then Z.lxor crc 0x8C else crc in
      crc8_rounds n' crc (shr8 b 1)
  end.

Definition OneWireCrc8 (data : list Z) : Z :=
  fold_left (fun crc b => crc8_rounds 8 crc b) data 0.

(** The loop of [OneWireSearch] over the delivered buffer. *)
Fixpoint search_loop (dataOut : list Z) (i : Z) (t : list Z)
    (addresses : list (list Z)) : list (list Z) :=
  match dataOut with
  | [] => addresses
  | d :: rest =>
      let t := t ++ [d] in
      if (0 <? i) && (i mod 8 =? 7)
      then search_loop rest (i + 1) [] (addresses ++ [t])
      else search_loop rest (i + 1) t addresses
  end.

Module FirmataClient.

(** A call of [sendSysEx]. *)
Record SysEx : Type := { cmd : Z; payload : list Z }.

(** The part of the client the OneWire layer touches.  [owChan] tells
    whether [OneWireConfig] has made the channel (a receive on a nil channel
    waits for ever).  [inbound] holds the OneWire payloads, still 7-bit
    packed, that the reader hands to [parseOWResponse], in order; one is
    handed over when a caller waits on the channel. *)
Record t : Type := mk {
  tx_log : list SysEx;
  tx_down : bool;
  owChan : bool;
  inbound : list (list Z)
}.

(** Modelled from the spec: [sendSysEx] is not among the two files.  The
    transport takes a sub-command and a byte payload and answers with an
    error or none; the model logs every call, and the call fails when the
    link is down. *)
Definition sendSysEx (c : t) (command : Z) (data : list Z) : option error * t :=
  (if tx_down c then Some TransportError else None,
   mk (tx_log c ++ [{| cmd := command; payload := data |}])
      (tx_down c) (owChan c) (inbound c)).

(** [parseOWResponse]: the value it sends on the channel. *)
Definition parseOWResponse (data7bit : list Z) : run (list Z) :=
  From7BitMulti data7bit.

(** [<-c.owChan] *)
Definition receive (c : t) : run (list Z * t) :=
  if owChan c then
    match inbound c with
    | [] => Blocked
    | data7bit :: rest =>
        data <- parseOWResponse data7bit ;;
        Value (data, mk (tx_log c) (tx_down c) (owChan c) rest)
    end
  else Blocked.

Section WithProtocol.
Variable K : Protocol.

Definition OneWireConfig (c : t) (csPin owPowerMode : Z) : run (option error * t) :=
  let csPinBytes := to7Bit csPin in
  let powerModeBytes := to7Bit owPowerMode in
  let c := mk (tx_log c) (tx_down c) true (inbound c) in
  cs0 <- of_index (index csPinBytes 0) ;;
  pm0 <- of_index (index powerModeBytes 0) ;;
  Value (sendSysEx c (SysExOneWire K) [byte_of (OneWireConfig K); cs0; pm0]).

Definition OneWireSearch (c : t) (csPin owSearchMode : Z)
  : run ((list (list Z) * option error) * t) :=
  let '(err, c) := sendSysEx c (SysExOneWire K) [byte_of owSearchMode; csPin] in
  '(dataOut, c) <- receive c ;;
  Value ((search_loop dataOut 0 [] [], err), c).

Definition OneWireCommand (c : t) (csPin : Z) (request : OneWireRequest.t)
  : run ((list Z * option error) * t) :=
  let d := [] in
  let d := d ++ [byte_of (OneWireRequest.Command request)] in
  let d := d ++ [csPin] in
  let d := d ++ OneWireRequest.Encode K request in
  let '(err, c) := sendSysEx c (SysExOneWire K) d in
  match err with
  | Some e => Value (([], Some e), c)
  | None =>
      if 0 <? Z.land (OneWireRequest.Command request) 0x8 then
        '(dataOut, c) <- receive c ;;
        Value ((dataOut, None), c)
      else Value (([], None), c)
  end.

End WithProtocol.

End FirmataClient.

(** [float32(x)] for a [uint16] [x], and the division by 16.  A [float32]
    holds every integer below [2^24] exactly, and dividing by a power of two
    changes the exponent only, so the rational number is the exact value of
    the Go expression. *)
Definition float32_of_uint16 (x : Z) : Q := inject_Z x.
Definition float32_div16 (t : Q) : Q := (t / 16)%Q.

Module Ds18x20.

(** The [Client] pointer of the Go struct is the [FirmataClient.t] that the
    methods take and give back. *)
Record t : Type := mk {
  Pin : Z;
  Address : list Z;
  scratch : list Z;
  Temperature : Q;
  RegisterTh : Z;
  RegisterTl : Z;
  ConfigRegister : Z
}.

Definition set_scratch (d : t) (s : list Z) : t :=
  mk (Pin d) (Address d) s (Temperature d) (RegisterTh d) (RegisterTl d)
     (ConfigRegister d).

Definition set_Temperature (d : t) (x : Q) : t :=
  mk (Pin d) (Address d) (scratch d) x (RegisterTh d) (RegisterTl d)
     (ConfigRegister d).

Definition set_RegisterTh (d : t) (x : Z) : t :=
  mk (Pin d) (Address d) (scratch d) (Temperature d) x (RegisterTl d)
     (ConfigRegister d).

Definition set_RegisterTl (d : t) (x : Z) : t :=
  mk (Pin d) (Address d) (scratch d) (Temperature d) (RegisterTh d) x
     (ConfigRegister d).

Definition set_ConfigRegister (d : t) (x : Z) : t :=
  mk (Pin d) (Address d) (scratch d) (Temperature d) (RegisterTh d)
     (RegisterTl d) x.

Definition GetResolution (d : t) : Z :=
  let res := Z.land (shr8 (ConfigRegister d) 5) 0x3 in
  byte_of (res + 9).

Definition parseTemperature (d : t) : run t :=
  s0 <- of_index (index (scratch d) 0) ;;
  s1 <- of_index (index (scratch d) 1) ;;
  let raw := Z.lor s0 (shl16 s1 8) in
  a0 <- of_index (index (Address d) 0) ;;
  d <- (if a0 =? 0x10 then
          let raw := shl16 raw 3 in
          s6 <- of_index (index (scratch d) 6) ;;
          Value (set_Temperature d
                   (float32_of_uint16
                      (sub16 (add16 (Z.land raw 0xFFF0) 12) s6)))
        else
          let res := GetResolution d in
          let raw :=
            if res =? 9 then Z.land raw 0xfff8
            else if res =? 10 then Z.land raw 0xfffc
            else if res =? 11 then Z.land raw 0xfffe
            else raw in
          Value (set_Temperature d (float32_of_uint16 raw))) ;;
  Value (set_Temperature d (float32_div16 (Temperature d))).

Section WithProtocol.
Variable K : Protocol.

Definition ConvertT (d : t) (c : FirmataClient.t) (all : bool)
  : run (option error * FirmataClient.t) :=
  let req := OneWireRequest.zero in
  let req := OneWireRequest.mk
               (OneWireRequest.Command req) (OneWireRequest.Address req)
               (OneWireRequest.ReadCount req)
               (OneWireRequest.CorrelationId req)
               (OneWireRequest.DelayMs req) [0x44] in
  let req :=
    if all then
      OneWireRequest.mk
        (Z.lor (Z.lor (OW_RESET K) (OW_SELECT K)) (OW_WRITE K))
        (Address d)
        (OneWireRequest.ReadCount req) (OneWireRequest.CorrelationId req)
        (OneWireRequest.DelayMs req) (OneWireRequest.Data req)
    else
      OneWireRequest.mk
        (Z.lor (Z.lor (OW_RESET K) (OW_SKIP K)) (OW_WRITE K))
        (OneWireRequest.Address req)
        (OneWireRequest.ReadCount req) (OneWireRequest.CorrelationId req)
        (OneWireRequest.DelayMs req) (OneWireRequest.Data req) in
  '(_, err, c) <- FirmataClient.OneWireCommand K c (Pin d) req ;;
  Value (err, c).

(** The request of [ReadScratchPad]. *)
Definition scratchpad_request (d : t) : OneWireRequest.t :=
  OneWireRequest.mk
    (Z.lor (Z.lor (Z.lor (OW_RESET K) (OW_SELECT K)) (OW_WRITE K)) (OW_READ K))
    (Address d) 9 0x1234 0 [0xbe].

Definition ReadScratchPad (d : t) (c : FirmataClient.t)
  : run (option error * t * FirmataClient.t) :=
  let req := scratchpad_request d in
  '(scratch0, err, c) <- FirmataClient.OneWireCommand K c (Pin d) req ;;
  match err with
  | Some e => Value (Some e, d, c)
  | None =>
      s <- of_index (slice_from scratch0 2) ;;
      let d := set_scratch d s in
      crc <- of_index (index (scratch d) (len (scratch d) - 1)) ;;
      pre <- of_index (slice_to (scratch d) (len (scratch d) - 1)) ;;
      let c8 := OneWireCrc8 pre in
      if negb (c8 =? crc) then
        Value (Some (CrcMismatch crc c8 (scratch d)), d, c)
      else
        d <- parseTemperature d ;;
        s4 <- of_index (index (scratch d) 4) ;;
        let d := set_ConfigRegister d s4 in
        s2 <- of_index (index (scratch d) 2) ;;
        let d := set_RegisterTh d s2 in
        s3 <- of_index (index (scratch d) 3) ;;
        let d := set_RegisterTl d s3 in
        Value (None, d, c)
  end.

(** The request of [Resolution], as it stands when it is sent. *)
Definition resolution_request (d : t) (r : Z) : OneWireRequest.t :=
  let req := OneWireRequest.mk
               (Z.lor (Z.lor (OW_RESET K) (OW_SELECT K)) (OW_WRITE K))
               (Address d) 0 0x1234 0 [0x4e; 0x0; 0x0] in
  let r := shl8 (byte_of (r - 9)) 6 in
  OneWireRequest.mk
    (OneWireRequest.Command req) (OneWireRequest.Address req)
    (OneWireRequest.ReadCount req) (OneWireRequest.CorrelationId req)
    (OneWireRequest.DelayMs req) (OneWireRequest.Data req ++ [r]).

Definition Resolution (d : t) (c : FirmataClient.t) (r : Z)
  : run (option error * FirmataClient.t) :=
  if (r <? 9) || (12 <? r) then Value (Some ResolutionOutOfRange, c)
  else
    let req := resolution_request d r in
    '(_, err, c) <- FirmataClient.OneWireCommand K c (Pin d) req ;;
    Value (err, c).

End WithProtocol.

End Ds18x20.

(** ** Reference definitions for the statements *)

(** The [n] low bytes of [v], least significant first. *)
Definition le_bytes (n : nat) (v : Z) : list Z :=
  map (fun k => (v / 256 ^ Z.of_nat k) mod 256) (seq 0 n).

(** [command & flag > 0] *)
Definition has_flag (command flag : Z) : bool := 0 <? Z.land command flag.

(** The unpacked body of a request: the fields its command bits select, in
    the order address, read count and correlation id, delay, write data. *)
Definition request_body (K : Protocol) (r : OneWireRequest.t) : list Z :=
  (if has_flag (OneWireRequest.Command r) (OW_SELECT K)
   then OneWireRequest.Address r else [])
  ++ (if has_flag (OneWireRequest.Command r) (OW_READ K)
      then le_bytes 2 (OneWireRequest.ReadCount r)
           ++ le_bytes 2 (OneWireRequest.CorrelationId r)
      else [])
  ++ (if has_flag (OneWireRequest.Command r) (OW_DELAY K)
      then le_bytes 4 (OneWireRequest.DelayMs r) else [])
  ++ (if has_flag (OneWireRequest.Command r) (OW_WRITE K)
      then OneWireRequest.Data r else []).

(** The four bits that select fields of a request are set in no two of the
    constants at once, and each constant has a bit. *)
Definition field_bits_disjoint (K : Protocol) : Prop :=
  0 < OW_SELECT K /\ 0 < OW_WRITE K /\
  Z.land (OW_SELECT K) (OW_READ K) = 0 /\
  Z.land (OW_SELECT K) (OW_DELAY K) = 0 /\
  Z.land (OW_SELECT K) (OW_WRITE K) = 0 /\
  Z.land (OW_WRITE K) (OW_READ K) = 0 /\
  Z.land (OW_WRITE K) (OW_DELAY K) = 0.

(** The consecutive groups of eight elements of a buffer: group [k] holds the
    elements [8k .. 8k+7], for every [k] below a whole eighth of the length. *)
Definition groups_of_8 (data : list Z) : list (list Z) :=
  map (fun k => firstn 8 (skipn (8 * k) data)) (seq 0 (length data / 8)).

(** A 16-bit pattern read as a two's-complement number. *)
Definition signed16 (x : Z) : Z := if x <? 32768 then x else x - 65536.

(** The client after one more call of [sendSysEx]. *)
Definition logged (c : FirmataClient.t) (command : Z) (data : list Z)
  : FirmataClient.t :=
  FirmataClient.mk
    (FirmataClient.tx_log c
       ++ [{| FirmataClient.cmd := command; FirmataClient.payload := data |}])
    (FirmataClient.tx_down c) (FirmataClient.owChan c)
    (FirmataClient.inbound c).

Definition send_result (c : FirmataClient.t) : option error :=
  if FirmataClient.tx_down c then Some TransportError else None.

(** ** Concrete devices and clients for the examples *)

Definition fresh_client (packed : list (list Z)) : FirmataClient.t :=
  FirmataClient.mk [] false true packed.

(** A DS18B20 (family code 0x28) on pin 2 that has not been read yet. *)
Definition fresh_ds18b20 : Ds18x20.t :=
  Ds18x20.mk 2 [0x28; 0xff; 0x4b; 0x46; 0x7f; 0xff; 0x0c; 0x10] [] 0 0 0 0.

(** A read reply as the firmware frames it: sub-command and pin, then the
    packed correlation id and scratchpad. *)
Definition read_reply (scratchpad : list Z) : list Z :=
  0x43 :: 0x02 :: To7BitMulti (0x34 :: 0x12 :: scratchpad).

(** ** More of util.go *)

(** [string(b)] for a [byte] [b]: the UTF-8 form of the code point [b], one
    byte below 0x80 and two from there on. *)
Definition string_of_byte (b : Z) : list Z :=
  if b <? 0x80 then [b]
  else [Z.lor 0xC0 (shr8 b 6); Z.lor 0x80 (Z.land b 0x3F)].

(** The loop of [multibyteString]: [i] goes up by two and the body reads
    [data[i]] and [data[i+1]]. *)
Fixpoint multibyte_loop (data : list Z) (str : list Z) : run (list Z) :=
  match data with
  | [] => Value str
  | [_] => IndexPanic
  | b0 :: b1 :: rest =>
      multibyte_loop rest (str ++ string_of_byte (from7Bit b0 b1))
  end.

(** A Go string is the list of its bytes. *)
Definition multibyteString (data : list Z) : run (list Z) :=
  let data := if negb (len data mod 2 =? 0) then data ++ [0] else data in
  multibyte_loop data [].

(** ** Reference definitions, continued *)

(** The 256 values of a byte. *)
Definition all_bytes : list Z := map Z.of_nat (seq 0 256).

(** The state of the loop of [To7BitMulti] after [data]: shift, carry and
    output so far, before the final flush. *)
Fixpoint to7_state (data : list Z) (shift prev : Z) (res : list Z)
  : Z * Z * list Z :=
  match data with
  | [] => (shift, prev, res)
  | b :: rest =>
      if shift =? 0 then
        to7_state rest (shift + 1) (shr8 b 7) (res ++ [Z.land b 0x7f])
      else
        let res := res ++ [Z.lor (Z.land (shl8 b shift) 0x7f) prev] in
        if shift =? 6 then
          to7_state rest 0 prev (res ++ [shr8 b 1])
        else
          let shift := shift + 1 in
          to7_state rest shift (shr8 b (8 - shift)) res
  end.

(** No bit of a command constant that selects no field is a field bit, and
    none of the constants of a write request has the bit [0x8] that makes
    [OneWireCommand] wait. *)
Definition write_bits_disjoint (K : Protocol) : Prop :=
  field_bits_disjoint K /\
  Z.land (OW_RESET K) (OW_SELECT K) = 0 /\
  Z.land (OW_RESET K) (OW_READ K) = 0 /\
  Z.land (OW_RESET K) (OW_DELAY K) = 0 /\
  Z.land (OW_RESET K) (OW_WRITE K) = 0 /\
  Z.land (OW_SKIP K) (OW_SELECT K) = 0 /\
  Z.land (OW_SKIP K) (OW_READ K) = 0 /\
  Z.land (OW_SKIP K) (OW_DELAY K) = 0 /\
  Z.land (OW_SKIP K) (OW_WRITE K) = 0 /\
  Z.land (OW_RESET K) 0x8 = 0 /\
  Z.land (OW_SKIP K) 0x8 = 0 /\
  Z.land (OW_SELECT K) 0x8 = 0 /\
  Z.land (OW_WRITE K) 0x8 = 0.

(** * Examples *)

Example To7BitMulti_ex1 : To7BitMulti [0xff] = [0x7f; 0x01].
Proof. reflexivity. Qed.

Example To7BitMulti_ex7 :
  To7BitMulti [0xff; 0xff; 0xff; 0xff; 0xff; 0xff; 0xff]
  = [0x7f; 0x7f; 0x7f; 0x7f; 0x7f; 0x7f; 0x7f; 0x7f].
Proof. reflexivity. Qed.

Example From7BitMulti_ex_hdr :
  From7BitMulti (0x43 :: 0x02 :: To7BitMulti [0x12; 0x34; 0xfe]) = Value [0x12; 0x34; 0xfe].
Proof. reflexivity. Qed.

(** * Bit-level facts about one packed position *)

Arguments shr8 : simpl never.
Arguments shl8 : simpl never.

Lemma byte_bits_high b i : is_byte b -> 8 <= i -> Z.testbit b i = false.
Proof.
  intros Hb Hi. unfold is_byte in Hb.
  rewrite <- (Z.mod_small b (2 ^ 8)) by (change (2 ^ 8) with 256; lia).
  apply Z.mod_pow2_bits_high. lia.
Qed.

Lemma unpack_mid s b p q :
  0 <= s <= 6 -> is_byte b -> 0 <= p < 2 ^ s ->
  Z.land q (Z.ones (s + 1)) = Z.shiftr b (7 - s) ->
  Z.lor (shr8 (Z.lor (Z.land (shl8 b s) 0x7f) p) s) (shl8 q (7 - s)) = b.
Proof.
  intros Hs Hb Hp Hq.
  unfold shr8, shl8, byte_of.
  change 127 with (Z.ones 7). change 256 with (2 ^ 8).
  assert (Hp' : forall i, s <= i -> Z.testbit p i = false).
  { intros i Hi. rewrite <- (Z.mod_small p (2 ^ s)) by lia.
    apply Z.mod_pow2_bits_high. lia. }
  assert (Hq' : forall i, 0 <= i < s + 1 -> Z.testbit q i = Z.testbit b (i + (7 - s))).
  { intros i Hi. rewrite <- Z.shiftr_spec by lia. rewrite <- Hq.
    rewrite Z.land_spec, Z.testbit_ones_nonneg by lia.
    replace (i <? s + 1) with true by (symmetry; apply Z.ltb_lt; lia).
    now rewrite andb_true_r. }
  apply Z.bits_inj'; intros n Hn. Z.rewrite_bitwise.
  replace (n + s - s) with n by lia.
  rewrite Hp' by lia.
  destruct (Z.ltb_spec (n + s) 7) as [Hlo | Hhi].
  - rewrite (Z.testbit_neg_r q) by lia.
    replace (n + s <? 8) with true by (symmetry; apply Z.ltb_lt; lia).
    btauto.
  - destruct (Z.ltb_spec n 8) as [Hn8 | Hn8].
    + rewrite Hq' by lia. replace (n - (7 - s) + (7 - s)) with n by lia. btauto.
    + rewrite (byte_bits_high b n) by (auto; lia). btauto.
Qed.

Lemma unpack_first b q :
  is_byte b ->
  Z.land q (Z.ones 1) = Z.shiftr b 7 ->
  Z.lor (shr8 (Z.land b 0x7f) 0) (shl8 q 7) = b.
Proof.
  intros Hb Hq.
  replace (Z.land b 0x7f) with (Z.lor (Z.land (shl8 b 0) 0x7f) 0).
  - apply (unpack_mid 0 b 0 q); auto; simpl; lia.
  - unfold shl8, byte_of. rewrite Z.shiftl_0_r, Z.lor_0_r.
    rewrite Z.mod_small by (unfold is_byte in Hb; lia). reflexivity.
Qed.

(** The three shapes of the packed byte that follows. *)
Lemma next_packed s b y :
  0 <= s <= 5 -> is_byte b -> 
  Z.land (Z.lor (Z.land (shl8 y (s + 1)) 0x7f) (shr8 b (7 - s))) (Z.ones (s + 1))
  = Z.shiftr b (7 - s).
Proof.
  intros Hs Hb. unfold shl8, shr8, byte_of.
  change 127 with (Z.ones 7). change 256 with (2 ^ 8).
  apply Z.bits_inj'; intros n Hn. Z.rewrite_bitwise.
  destruct (Z.ltb_spec n (s + 1)).
  - replace (n <? 0) with false by (symmetry; apply Z.ltb_ge; lia).
    rewrite (Z.testbit_neg_r y) by lia. btauto.
  - rewrite (byte_bits_high b) by (auto; lia). btauto.
Qed.

Lemma next_flush s b :
  0 <= s <= 6 -> is_byte b -> 
  Z.land (shr8 b (7 - s)) (Z.ones (s + 1)) = Z.shiftr b (7 - s).
Proof.
  intros Hs Hb. unfold shr8.
  apply Z.bits_inj'; intros n Hn. Z.rewrite_bitwise.
  destruct (Z.ltb_spec n (s + 1)).
  - btauto.
  - rewrite (byte_bits_high b) by (auto; lia). btauto.
Qed.

Lemma shr8_range b k :
  is_byte b -> 0 <= k <= 8 -> 0 <= shr8 b k < 2 ^ (8 - k).
Proof.
  intros Hb Hk. unfold shr8, is_byte in *. rewrite Z.shiftr_div_pow2 by lia.
  split.
  - apply Z.div_pos; [lia | apply Z.pow_pos_nonneg; lia].
  - apply Z.div_lt_upper_bound; [apply Z.pow_pos_nonneg; lia |].
    rewrite <- Z.pow_add_r by lia. replace (k + (8 - k)) with 8 by lia.
    change (2 ^ 8) with 256. lia.
Qed.

Lemma msb_clear_iff z : msb_clear z <-> 0 <= z < 128.
Proof.
  unfold msb_clear, is_byte. split.
  - intros [Hb H7]. split; [lia |].
    destruct (Z_lt_ge_dec z 128) as [Hlt | Hge]; [assumption | exfalso].
    rewrite Z.testbit_false in H7 by lia.
    change (2 ^ 7) with 128 in H7.
    assert (H : z / 128 = 1) by (Z.div_mod_to_equations; lia).
    rewrite H in H7. discriminate.
  - intros Hz. split; [lia |].
    rewrite <- (Z.mod_small z (2 ^ 7)) by (change (2 ^ 7) with 128; lia).
    apply Z.mod_pow2_bits_high. lia.
Qed.

Lemma land_0x7f_range x : 0 <= Z.land x 0x7f < 128.
Proof.
  change 127 with (Z.ones 7). rewrite Z.land_ones by lia.
  change (2 ^ 7) with 128. apply Z.mod_pos_bound. lia.
Qed.

Lemma lor_range7 a b : 0 <= a < 128 -> 0 <= b < 128 -> 0 <= Z.lor a b < 128.
Proof.
  intros Ha Hb. split; [apply Z.lor_nonneg; lia |].
  rewrite <- (Z.mod_small a (2 ^ 7)), <- (Z.mod_small b (2 ^ 7))
    by (change (2 ^ 7) with 128; lia).
  rewrite <- !Z.land_ones, <- Z.land_lor_distr_l, Z.land_ones by lia.
  change (2 ^ 7) with 128. apply Z.mod_pos_bound. lia.
Qed.

(** * The packer *)

Lemma to7_loop_msb_clear data :
  forall shift prev res,
    Forall is_byte data -> 0 <= shift <= 6 -> 0 <= prev < 128 ->
    Forall msb_clear res ->
    Forall msb_clear (to7_loop data shift prev res).
Proof.
  induction data as [| b rest IH]; intros shift prev res Hdata Hs Hp Hres;
    cbn [to7_loop].
  - destruct (0 <? shift); [| assumption].
    apply Forall_app; split; [assumption |].
    constructor; [apply msb_clear_iff; assumption | constructor].
  - inversion Hdata as [| ? ? Hb Hrest]; subst.
    destruct (Z.eqb_spec shift 0) as [-> | Hs0].
    + apply IH; auto; try lia.
      * pose proof (shr8_range b 7 Hb ltac:(lia)) as Hr. simpl in Hr. lia.
      * apply Forall_app; split; [assumption |].
        constructor; [apply msb_clear_iff, land_0x7f_range | constructor].
    + assert (Hcur : Forall msb_clear
                       (res ++ [Z.lor (Z.land (shl8 b shift) 0x7f) prev])).
      { apply Forall_app; split; [assumption |].
        constructor; [| constructor].
        apply msb_clear_iff, lor_range7; [apply land_0x7f_range | assumption]. }
      destruct (Z.eqb_spec shift 6) as [-> | Hs6].
      * apply IH; auto; try lia.
        apply Forall_app; split; [assumption |].
        constructor; [| constructor]. apply msb_clear_iff.
        pose proof (shr8_range b 1 Hb ltac:(lia)) as Hr. simpl in Hr. lia.
      * apply IH; auto; try lia.
        pose proof (shr8_range b (8 - (shift + 1)) Hb ltac:(lia)) as Hr.
        replace (8 - (8 - (shift + 1))) with (shift + 1) in Hr by lia.
        assert (2 ^ (shift + 1) <= 2 ^ 6) by (apply Z.pow_le_mono_r; lia).
        change (2 ^ 6) with 64 in *. lia.
Qed.

(** C6.  Every byte that [To7BitMulti] produces, the flushed carry byte
    included, has its most significant bit equal to zero. *)
Theorem To7BitMulti_msb_clear data :
  Forall is_byte data -> Forall msb_clear (To7BitMulti data).
Proof.
  intros Hdata. unfold To7BitMulti.
  apply to7_loop_msb_clear; auto; lia.
Qed.

Lemma To7BitMulti_msb_clear_witness :
  Forall is_byte [0xff; 0x80; 0x01] /\
  Forall msb_clear (To7BitMulti [0xff; 0x80; 0x01]).
Proof.
  assert (H : Forall is_byte [0xff; 0x80; 0x01])
    by (repeat constructor; unfold is_byte; lia).
  split; [exact H | exact (To7BitMulti_msb_clear _ H)].
Defined.

(** * The unpacker *)

(** The loop of [From7BitMulti] stops: with one unit of fuel per element and
    one more, the fuel never runs out. *)
Lemma from7_loop_fuel fuel :
  forall data i shift res,
    0 <= i -> Z.max 0 (len data - 3 - i) < Z.of_nat fuel ->
    from7_loop fuel data i shift res <> OutOfFuel.
Proof.
  induction fuel as [| fuel IH]; intros data i shift res Hi Hfuel.
  - simpl in Hfuel. lia.
  - cbn [from7_loop].
    destruct (Z.ltb_spec i (len data - 3)); [| discriminate].
    destruct (index data _); [| discriminate].
    destruct (index data _); [| discriminate].
    apply IH; destruct ((0 <? i) && (i mod 7 =? 0)); lia.
Qed.

Theorem From7BitMulti_terminates data : From7BitMulti data <> OutOfFuel.
Proof.
  unfold From7BitMulti. apply from7_loop_fuel; unfold len; lia.
Qed.

(** C10.  A packed buffer of at most three bytes unpacks to the empty buffer;
    in particular the packed form of a one-byte buffer, which has two bytes,
    unpacks to nothing. *)
Theorem From7BitMulti_short :
  (forall data, (length data <= 3)%nat -> From7BitMulti data = Value []) /\
  (forall b, length (To7BitMulti [b]) = 2%nat /\
             From7BitMulti (To7BitMulti [b]) = Value []).
Proof.
  assert (Hshort : forall data, (length data <= 3)%nat ->
                                From7BitMulti data = Value []).
  { intros data Hlen. unfold From7BitMulti. cbn [from7_loop].
    destruct (Z.ltb_spec 0 (len data - 3)) as [Hlt | _]; [| reflexivity].
    unfold len in Hlt. lia. }
  split; [exact Hshort |].
  intros b. split; [reflexivity |].
  apply Hshort. simpl. lia.
Qed.

Lemma From7BitMulti_short_witness :
  (length [0x7f; 0x01; 0x55] <= 3)%nat /\
  From7BitMulti [0x7f; 0x01; 0x55] = Value [].
Proof.
  split; [simpl; lia |].
  apply (proj1 From7BitMulti_short). simpl. lia.
Defined.

(** * Round trip *)

(** One unpacked position: the low bits come from the packed byte at that
    position, the high bits from the packed byte after it. *)
Ltac solve_next :=
  first [ apply (next_flush 0) | apply (next_flush 1) | apply (next_flush 2)
        | apply (next_flush 3) | apply (next_flush 4) | apply (next_flush 5)
        | apply (next_flush 6)
        | apply (next_packed 0) | apply (next_packed 1) | apply (next_packed 2)
        | apply (next_packed 3) | apply (next_packed 4) | apply (next_packed 5) ];
  [ lia | assumption ].

Ltac solve_position :=
  lazymatch goal with
  | |- Z.lor (shr8 (Z.land ?b 127) 0) (shl8 ?q 7) = ?b =>
      apply (unpack_first b q); [ assumption | solve_next ]
  | |- Z.lor (shr8 (Z.lor (Z.land (shl8 ?b ?s) 127) (shr8 ?a ?k)) ?s) (shl8 ?q _) = ?b =>
      apply (unpack_mid s b (shr8 a k) q);
      [ lia | assumption | apply (shr8_range a k); [ assumption | lia ] | solve_next ]
  end.

Ltac split_list_eq :=
  repeat lazymatch goal with
    | |- Value _ = Value _ => apply f_equal
    | |- _ :: _ = _ :: _ => apply f_equal2; [ solve_position | ]
    | |- [] = [] => reflexivity
    end.

Ltac invert_bytes :=
  repeat match goal with
    | H : Forall is_byte (_ :: _) |- _ => inversion H; subst; clear H
    end.

(** C1, amended.  The unpacker expects the two header bytes of a reply in
    front of the packed bytes: behind any two bytes, the packed form of a
    buffer of at most 13 bytes unpacks to that buffer. *)
Theorem From7BitMulti_To7BitMulti_header h0 h1 B :
  Forall is_byte B -> (length B <= 13)%nat ->
  From7BitMulti (h0 :: h1 :: To7BitMulti B) = Value B.
Proof.
  intros HB Hlen.
  do 14 (destruct B as [| ? B];
         [ invert_bytes; cbv - [shr8 shl8 Z.land Z.lor]; split_list_eq | ]).
  simpl in Hlen. lia.
Qed.

Lemma From7BitMulti_To7BitMulti_header_witness :
  Forall is_byte [0x28; 0xff; 0x4b; 0x46; 0x7f; 0xff; 0x0c; 0x10; 0x21] /\
  (length [0x28; 0xff; 0x4b; 0x46; 0x7f; 0xff; 0x0c; 0x10; 0x21] <= 13)%nat /\
  From7BitMulti
    (0x43 :: 0x02 ::
       To7BitMulti [0x28; 0xff; 0x4b; 0x46; 0x7f; 0xff; 0x0c; 0x10; 0x21])
  = Value [0x28; 0xff; 0x4b; 0x46; 0x7f; 0xff; 0x0c; 0x10; 0x21].
Proof.
  assert (H : Forall is_byte [0x28; 0xff; 0x4b; 0x46; 0x7f; 0xff; 0x0c; 0x10; 0x21])
    by (repeat constructor; unfold is_byte; lia).
  assert (L : (length [0x28; 0xff; 0x4b; 0x46; 0x7f; 0xff; 0x0c; 0x10; 0x21] <= 13)%nat)
    by (simpl; lia).
  split; [exact H | split; [exact L |]].
  exact (From7BitMulti_To7BitMulti_header 0x43 0x02 _ H L).
Defined.

(** C1 as stated fails already on a one-byte buffer: its packed form has two
    bytes, which the unpacker takes for the header. *)
Lemma From7BitMulti_To7BitMulti_counterexample :
  From7BitMulti (To7BitMulti [0x01]) = Value [] /\
  From7BitMulti (To7BitMulti [0x01]) <> Value [0x01].
Proof.
  split; [reflexivity | discriminate].
Qed.

(** Past 13 bytes the header form fails as well: at 14 bytes the unpacker
    reads one element past the end. *)
Lemma From7BitMulti_header_14_panics h0 h1 B :
  length B = 14%nat -> From7BitMulti (h0 :: h1 :: To7BitMulti B) = IndexPanic.
Proof.
  intros Hlen.
  do 14 (destruct B as [| ? B]; [discriminate Hlen |]).
  destruct B; [| discriminate Hlen].
  reflexivity.
Qed.

(** * Requests *)

Lemma le_byte_at v k :
  0 <= k ->
  byte_of (Z.land (Z.shiftr v (8 * k)) 0xff) = (v / 256 ^ k) mod 256.
Proof.
  intros Hk. unfold byte_of.
  change 255 with (Z.ones 8). rewrite Z.land_ones by lia.
  change (2 ^ 8) with 256. rewrite Z.mod_mod by lia.
  rewrite Z.shiftr_div_pow2 by lia.
  rewrite Z.pow_mul_r by lia. reflexivity.
Qed.

Lemma le_bytes_2 v :
  [byte_of (Z.land v 0xff); byte_of (Z.land (Z.shiftr v 8) 0xff)] = le_bytes 2 v.
Proof.
  unfold le_bytes. cbn [seq map].
  rewrite <- (le_byte_at v (Z.of_nat 0)), <- (le_byte_at v (Z.of_nat 1)) by lia.
  reflexivity.
Qed.

Lemma le_bytes_4 v :
  [byte_of (Z.land v 0xff); byte_of (Z.land (Z.shiftr v 8) 0xff);
   byte_of (Z.land (Z.shiftr v 16) 0xff); byte_of (Z.land (Z.shiftr v 24) 0xff)]
  = le_bytes 4 v.
Proof.
  unfold le_bytes. cbn [seq map].
  rewrite <- (le_byte_at v (Z.of_nat 0)), <- (le_byte_at v (Z.of_nat 1)),
    <- (le_byte_at v (Z.of_nat 2)), <- (le_byte_at v (Z.of_nat 3)) by lia.
  reflexivity.
Qed.

Lemma Encode_body K r :
  OneWireRequest.Encode K r = To7BitMulti (request_body K r).
Proof.
  unfold OneWireRequest.Encode, request_body, has_flag.
  f_equal.
  destruct (0 <? Z.land _ (OW_SELECT K)), (0 <? Z.land _ (OW_READ K)),
    (0 <? Z.land _ (OW_DELAY K)), (0 <? Z.land _ (OW_WRITE K));
    cbn [app]; rewrite <- ?le_bytes_2, <- ?le_bytes_4, <- ?app_assoc;
    cbn [app]; rewrite ?app_nil_r; reflexivity.
Qed.

Lemma has_flag_self f : 0 < f -> has_flag f f = true.
Proof.
  intros Hf. unfold has_flag. rewrite Z.land_diag. apply Z.ltb_lt, Hf.
Qed.

Lemma has_flag_disjoint f g : Z.land f g = 0 -> has_flag f g = false.
Proof.
  intros H. unfold has_flag. rewrite H. reflexivity.
Qed.

Lemma has_flag_lor_l f g h :
  Z.land g h = 0 -> has_flag (Z.lor f g) h = has_flag f h.
Proof.
  intros H. unfold has_flag.
  rewrite Z.land_lor_distr_l, H, Z.lor_0_r. reflexivity.
Qed.

Lemma has_flag_lor_r f g h :
  Z.land f h = 0 -> has_flag (Z.lor f g) h = has_flag g h.
Proof.
  intros H. unfold has_flag.
  rewrite Z.land_lor_distr_l, H, Z.lor_0_l. reflexivity.
Qed.

(** C7.  [Encode] packs the concatenation of the address (under SELECT),
    the little-endian read count and correlation id, two bytes each (under
    READ), the four little-endian bytes of the delay (under DELAY) and the
    write data (under WRITE), in that order.  With command bits that do not
    overlap, a request with WRITE alone has the write data as its body, and
    one with SELECT and WRITE has the address followed by the write data. *)
Theorem Encode_order K r :
  OneWireRequest.Encode K r = To7BitMulti (request_body K r) /\
  (field_bits_disjoint K ->
   (OneWireRequest.Command r = OW_WRITE K ->
    request_body K r = OneWireRequest.Data r /\
    OneWireRequest.Encode K r = To7BitMulti (OneWireRequest.Data r)) /\
   (OneWireRequest.Command r = Z.lor (OW_SELECT K) (OW_WRITE K) ->
    request_body K r = OneWireRequest.Address r ++ OneWireRequest.Data r /\
    OneWireRequest.Encode K r
    = To7BitMulti (OneWireRequest.Address r ++ OneWireRequest.Data r))).
Proof.
  split; [apply Encode_body |].
  intros (HS & HW & HSR & HSD & HSW & HWR & HWD).
  assert (HWS : Z.land (OW_WRITE K) (OW_SELECT K) = 0)
    by (rewrite Z.land_comm; exact HSW).
  split; intros Hcmd.
  - assert (Hbody : request_body K r = OneWireRequest.Data r).
    { unfold request_body. rewrite Hcmd.
      rewrite (has_flag_disjoint _ _ HWS), (has_flag_disjoint _ _ HWR),
        (has_flag_disjoint _ _ HWD), (has_flag_self _ HW).
      reflexivity. }
    split; [exact Hbody | rewrite Encode_body, Hbody; reflexivity].
  - assert (Hbody : request_body K r
                    = OneWireRequest.Address r ++ OneWireRequest.Data r).
    { unfold request_body. rewrite Hcmd.
      rewrite (has_flag_lor_l _ _ _ HWS), (has_flag_self _ HS).
      rewrite (has_flag_lor_l _ _ _ HWR), (has_flag_disjoint _ _ HSR).
      rewrite (has_flag_lor_l _ _ _ HWD), (has_flag_disjoint _ _ HSD).
      rewrite (has_flag_lor_r _ _ _ HSW), (has_flag_self _ HW).
      reflexivity. }
    split; [exact Hbody | rewrite Encode_body, Hbody; reflexivity].
Qed.

Lemma firmata_field_bits_disjoint : field_bits_disjoint firmata.
Proof.
  unfold field_bits_disjoint. cbn. repeat split; lia.
Defined.

Lemma Encode_order_witness :
  field_bits_disjoint firmata /\
  OneWireRequest.Encode firmata (OneWireRequest.mk 0x20 [] 0 0 0 [0x44])
  = To7BitMulti [0x44] /\
  OneWireRequest.Encode firmata
    (OneWireRequest.mk (Z.lor 0x04 0x20) [0x28; 1; 2; 3; 4; 5; 6; 7] 0 0 0 [0x44])
  = To7BitMulti ([0x28; 1; 2; 3; 4; 5; 6; 7] ++ [0x44]).
Proof.
  split; [exact firmata_field_bits_disjoint |].
  split.
  - exact (proj2 (proj1 (proj2
             (Encode_order firmata (OneWireRequest.mk 0x20 [] 0 0 0 [0x44]))
             firmata_field_bits_disjoint) eq_refl)).
  - exact (proj2 (proj2 (proj2
             (Encode_order firmata
                (OneWireRequest.mk (Z.lor 0x04 0x20) [0x28; 1; 2; 3; 4; 5; 6; 7]
                   0 0 0 [0x44]))
             firmata_field_bits_disjoint) eq_refl)).
Defined.

(** * Configuration *)

(** C4, amended.  The configuration request carries, after the sub-command
    byte, exactly two bytes: the low seven bits of the pin and the low seven
    bits of the power mode.  The high parts that [to7Bit] computes are not
    sent. *)
Theorem OneWireConfig_body K c csPin owPowerMode :
  FirmataClient.OneWireConfig K c csPin owPowerMode
  = Value
      (send_result c,
       logged (FirmataClient.mk (FirmataClient.tx_log c)
                 (FirmataClient.tx_down c) true (FirmataClient.inbound c))
         (SysExOneWire K)
         (byte_of (OneWireConfig K)
            :: [Z.land csPin 0x7f; Z.land owPowerMode 0x7f])).
Proof.
  unfold FirmataClient.OneWireConfig, to7Bit.
  change (index [Z.land csPin 0x7f; Z.land (shr8 csPin 7) 0x7f] 0)
    with (Some (Z.land csPin 0x7f)).
  change (index [Z.land owPowerMode 0x7f; Z.land (shr8 owPowerMode 7) 0x7f] 0)
    with (Some (Z.land owPowerMode 0x7f)).
  cbn [of_index bind].
  unfold FirmataClient.sendSysEx, send_result, logged.
  reflexivity.
Qed.

(** C4 as stated asks for four bytes; for pin 2 and power mode 1 the body is
    [2; 1], not [2; 0; 1; 0]. *)
Lemma OneWireConfig_body_counterexample :
  FirmataClient.OneWireConfig firmata (fresh_client []) 2 1
  = Value
      (None,
       FirmataClient.mk
         [{| FirmataClient.cmd := 0x73; FirmataClient.payload := 0x41 :: [2; 1] |}]
         false true []) /\
  [2; 1] <> to7Bit 2 ++ to7Bit 1.
Proof.
  split; [reflexivity | discriminate].
Qed.

(** * Search *)

Lemma groups_of_8_short t : (length t < 8)%nat -> groups_of_8 t = [].
Proof.
  intros H. unfold groups_of_8. rewrite Nat.div_small by exact H. reflexivity.
Qed.

Lemma groups_of_8_cons g l :
  length g = 8%nat -> groups_of_8 (g ++ l) = g :: groups_of_8 l.
Proof.
  intros Hg. unfold groups_of_8.
  rewrite length_app, Hg.
  replace ((8 + length l) / 8)%nat with (S (length l / 8)).
  2:{ change (8 + length l)%nat with (1 * 8 + length l)%nat.
      rewrite Nat.div_add_l by discriminate. reflexivity. }
  cbn [seq map]. f_equal.
  - rewrite Nat.mul_0_r. cbn [skipn].
    rewrite firstn_app, Hg, Nat.sub_diag, firstn_O, app_nil_r.
    apply firstn_all2. lia.
  - rewrite <- seq_shift, map_map. apply map_ext. intros k.
    f_equal. rewrite skipn_app, Hg.
    rewrite (skipn_all2 g) by lia.
    replace (8 * S k - 8)%nat with (8 * k)%nat by lia. reflexivity.
Qed.

Lemma search_loop_groups dataOut :
  forall i t addresses,
    0 <= i -> i mod 8 = Z.of_nat (length t) ->
    search_loop dataOut i t addresses = addresses ++ groups_of_8 (t ++ dataOut).
Proof.
  induction dataOut as [| d rest IH]; intros i t addresses Hi Hmod.
  - cbn [search_loop]. rewrite app_nil_r, groups_of_8_short, app_nil_r.
    + reflexivity.
    + pose proof (Z.mod_pos_bound i 8 ltac:(lia)). lia.
  - cbn [search_loop].
    assert (Hnext : (t ++ [d]) ++ rest = t ++ d :: rest)
      by (rewrite <- app_assoc; reflexivity).
    destruct (Z.eqb_spec (i mod 8) 7) as [H7 | H7].
    + replace (0 <? i) with true
        by (symmetry; apply Z.ltb_lt; Z.div_mod_to_equations; lia).
      cbn [andb].
      rewrite IH.
      * cbn [app]. rewrite <- Hnext, groups_of_8_cons, <- app_assoc.
        -- reflexivity.
        -- rewrite length_app. cbn [length]. lia.
      * lia.
      * cbn [length]. Z.div_mod_to_equations. lia.
    + rewrite andb_false_r. rewrite IH.
      * rewrite Hnext. reflexivity.
      * lia.
      * rewrite length_app. cbn [length].
        pose proof (Z.mod_pos_bound i 8 ltac:(lia)).
        Z.div_mod_to_equations. lia.
Qed.

(** C8.  [OneWireSearch] returns the consecutive groups of eight bytes of the
    delivered buffer, in order, and drops a shorter last group: of 17 bytes
    it keeps bytes 0 to 7 and 8 to 15 as two addresses, and byte 16 is in
    neither. *)
Theorem OneWireSearch_partition K c csPin owSearchMode packed rest dataOut :
  FirmataClient.owChan c = true ->
  FirmataClient.inbound c = packed :: rest ->
  FirmataClient.parseOWResponse packed = Value dataOut ->
  FirmataClient.OneWireSearch K c csPin owSearchMode
  = Value
      (groups_of_8 dataOut, send_result c,
       FirmataClient.mk
         (FirmataClient.tx_log c
            ++ [{| FirmataClient.cmd := SysExOneWire K;
                   FirmataClient.payload := [byte_of owSearchMode; csPin] |}])
         (FirmataClient.tx_down c) true rest) /\
  (length dataOut = 17%nat ->
   groups_of_8 dataOut = [firstn 8 dataOut; firstn 8 (skipn 8 dataOut)] /\
   concat (groups_of_8 dataOut) = firstn 16 dataOut).
Proof.
  intros Hchan Hin Hparse. split.
  - unfold FirmataClient.OneWireSearch, FirmataClient.sendSysEx,
      FirmataClient.receive.
    cbn [FirmataClient.owChan FirmataClient.inbound FirmataClient.tx_log
           FirmataClient.tx_down].
    rewrite Hchan, Hin, Hparse. cbn [bind].
    rewrite (search_loop_groups dataOut 0 [] []) by (cbn; lia).
    reflexivity.
  - intros Hlen.
    do 17 (destruct dataOut as [| ? dataOut]; [discriminate Hlen |]).
    destruct dataOut; [| discriminate Hlen].
    split; reflexivity.
Qed.

Lemma OneWireSearch_partition_witness :
  let reply := [0x28; 1; 2; 3; 4; 5; 6; 7; 0x10; 9; 10; 11; 12; 0; 0; 15; 16] in
  let c := fresh_client [0x42 :: 0x02 :: To7BitMulti reply] in
  FirmataClient.owChan c = true /\
  FirmataClient.parseOWResponse (0x42 :: 0x02 :: To7BitMulti reply) = Value reply /\
  length reply = 17%nat /\
  FirmataClient.OneWireSearch firmata c 2 0x40
  = Value
      (groups_of_8 reply, None,
       FirmataClient.mk
         [{| FirmataClient.cmd := 0x73; FirmataClient.payload := [0x40; 2] |}]
         false true []) /\
  groups_of_8 reply
  = [[0x28; 1; 2; 3; 4; 5; 6; 7]; [0x10; 9; 10; 11; 12; 0; 0; 15]].
Proof.
  intros reply c.
  pose proof (OneWireSearch_partition firmata c 2 0x40
                (0x42 :: 0x02 :: To7BitMulti reply) [] reply
                eq_refl eq_refl eq_refl) as [Hrun Hgroups].
  split; [reflexivity |]. split; [reflexivity |]. split; [reflexivity |].
  split; [exact Hrun | exact (proj1 (Hgroups eq_refl))].
Defined.

(** * Resolution *)

(** C9.  A resolution below 9 or above 12 is refused with an error and the
    client is left as it was: no call of the transport.  A resolution from 9
    to 12 hands one message to the transport: the command byte
    RESET|SELECT|WRITE, the pin, and the encoded request whose write data are
    [0x4e; 0; 0; (r - 9) << 6]. *)
Theorem Resolution_request K d c r :
  (r < 9 \/ 12 < r ->
   Ds18x20.Resolution K d c r = Value (Some ResolutionOutOfRange, c)) /\
  (9 <= r <= 12 ->
   let command := Z.lor (Z.lor (OW_RESET K) (OW_SELECT K)) (OW_WRITE K) in
   let req := OneWireRequest.mk command (Ds18x20.Address d) 0 0x1234 0
                [0x4e; 0; 0; Z.shiftl (r - 9) 6] in
   Z.land command 0x8 = 0 ->
   Ds18x20.Resolution K d c r
   = Value
       (send_result c,
        logged c (SysExOneWire K)
          (byte_of command :: Ds18x20.Pin d :: OneWireRequest.Encode K req))).
Proof.
  split.
  - intros Hr. unfold Ds18x20.Resolution.
    replace ((r <? 9) || (12 <? r)) with true; [reflexivity |].
    symmetry. apply orb_true_iff.
    destruct Hr; [left; apply Z.ltb_lt | right; apply Z.ltb_lt]; assumption.
  - intros Hr command req Hnoread. unfold Ds18x20.Resolution.
    replace ((r <? 9) || (12 <? r)) with false.
    2:{ symmetry. apply orb_false_iff. split; apply Z.ltb_ge; lia. }
    assert (Hreq : Ds18x20.resolution_request K d r = req).
    { unfold Ds18x20.resolution_request, req. cbn [OneWireRequest.Command
        OneWireRequest.Address OneWireRequest.ReadCount
        OneWireRequest.CorrelationId OneWireRequest.DelayMs
        OneWireRequest.Data app].
      f_equal. do 3 f_equal.
      assert (Hcases : r = 9 \/ r = 10 \/ r = 11 \/ r = 12) by lia.
      destruct Hcases as [-> | [-> | [-> | ->]]]; reflexivity. }
    rewrite Hreq.
    unfold FirmataClient.OneWireCommand, FirmataClient.sendSysEx, send_result,
      logged.
    cbn [OneWireRequest.Command req app].
    fold command. rewrite Hnoread.
    destruct (FirmataClient.tx_down c); reflexivity.
Qed.

Lemma Resolution_request_witness :
  (8 < 9 \/ 12 < 8) /\
  Ds18x20.Resolution firmata fresh_ds18b20 (fresh_client []) 8
  = Value (Some ResolutionOutOfRange, fresh_client []) /\
  9 <= 10 <= 12 /\
  Z.land (Z.lor (Z.lor 0x01 0x04) 0x20) 0x8 = 0 /\
  Ds18x20.Resolution firmata fresh_ds18b20 (fresh_client []) 10
  = Value
      (None,
       logged (fresh_client []) 0x73
         (0x25 :: 2
            :: OneWireRequest.Encode firmata
                 (OneWireRequest.mk 0x25 (Ds18x20.Address fresh_ds18b20)
                    0 0x1234 0 [0x4e; 0; 0; 0x40]))).
Proof.
  assert (H8 : 8 < 9 \/ 12 < 8) by (left; lia).
  assert (H10 : 9 <= 10 <= 12) by lia.
  split; [exact H8 |].
  split; [exact (proj1 (Resolution_request firmata fresh_ds18b20 (fresh_client []) 8) H8) |].
  split; [exact H10 |].
  split; [reflexivity |].
  exact (proj2 (Resolution_request firmata fresh_ds18b20 (fresh_client []) 10)
           H10 eq_refl).
Defined.

(** * Scratchpad *)

Lemma len_app_one body x : len (body ++ [x]) - 1 = len body.
Proof.
  unfold len. rewrite length_app. cbn [length]. lia.
Qed.

Lemma slice_from_header h0 h1 s : slice_from (h0 :: h1 :: s) 2 = Some s.
Proof.
  unfold slice_from, len. cbn [length].
  replace (2 <=? Z.of_nat (S (S (length s)))) with true
    by (symmetry; apply Z.leb_le; lia).
  reflexivity.
Qed.

Lemma index_last body x : index (body ++ [x]) (len (body ++ [x]) - 1) = Some x.
Proof.
  rewrite len_app_one. unfold index, len.
  replace (Z.of_nat (length body) <? 0) with false
    by (symmetry; apply Z.ltb_ge; lia).
  rewrite Nat2Z.id, nth_error_app2, Nat.sub_diag by lia. reflexivity.
Qed.

Lemma slice_to_last body x :
  slice_to (body ++ [x]) (len (body ++ [x]) - 1) = Some body.
Proof.
  unfold slice_to. rewrite len_app_one. unfold len.
  rewrite length_app. cbn [length].
  replace (0 <=? Z.of_nat (length body)) with true
    by (symmetry; apply Z.leb_le; lia).
  replace (Z.of_nat (length body) <=? Z.of_nat (length body + 1)) with true
    by (symmetry; apply Z.leb_le; lia).
  cbn [andb]. rewrite Nat2Z.id, firstn_app, Nat.sub_diag, firstn_all.
  cbn [firstn]. rewrite app_nil_r. reflexivity.
Qed.

(** What [OneWireCommand] does for the read request when the link is up and a
    reply comes in. *)
Lemma OneWireCommand_read K c csPin req packed rest dataOut :
  FirmataClient.tx_down c = false ->
  FirmataClient.owChan c = true ->
  FirmataClient.inbound c = packed :: rest ->
  0 < Z.land (OneWireRequest.Command req) 0x8 ->
  FirmataClient.parseOWResponse packed = Value dataOut ->
  FirmataClient.OneWireCommand K c csPin req
  = Value
      (dataOut, None,
       FirmataClient.mk
         (FirmataClient.tx_log c
            ++ [{| FirmataClient.cmd := SysExOneWire K;
                   FirmataClient.payload :=
                     byte_of (OneWireRequest.Command req) :: csPin
                       :: OneWireRequest.Encode K req |}])
         false true rest).
Proof.
  intros Hup Hchan Hin Hread Hparse.
  unfold FirmataClient.OneWireCommand, FirmataClient.sendSysEx,
    FirmataClient.receive.
  cbn [FirmataClient.owChan FirmataClient.inbound FirmataClient.tx_log
         FirmataClient.tx_down app].
  rewrite Hup, Hchan, Hin, Hparse.
  apply Z.ltb_lt in Hread. rewrite Hread.
  reflexivity.
Qed.

(** C2, amended.  When the last byte of the delivered scratchpad differs from
    the CRC of the bytes before it, [ReadScratchPad] returns the CRC error
    and leaves [Temperature], [RegisterTh], [RegisterTl] and [ConfigRegister]
    as they were; [scratch] holds the delivered scratchpad. *)
Theorem ReadScratchPad_crc_mismatch K d c packed rest h0 h1 body crc :
  FirmataClient.tx_down c = false ->
  FirmataClient.owChan c = true ->
  FirmataClient.inbound c = packed :: rest ->
  0 < Z.land (OneWireRequest.Command (Ds18x20.scratchpad_request K d)) 0x8 ->
  FirmataClient.parseOWResponse packed = Value (h0 :: h1 :: body ++ [crc]) ->
  OneWireCrc8 body <> crc ->
  exists d' c',
    Ds18x20.ReadScratchPad K d c
    = Value (Some (CrcMismatch crc (OneWireCrc8 body) (body ++ [crc])), d', c') /\
    Ds18x20.scratch d' = body ++ [crc] /\
    Ds18x20.Temperature d' = Ds18x20.Temperature d /\
    Ds18x20.RegisterTh d' = Ds18x20.RegisterTh d /\
    Ds18x20.RegisterTl d' = Ds18x20.RegisterTl d /\
    Ds18x20.ConfigRegister d' = Ds18x20.ConfigRegister d /\
    Ds18x20.Pin d' = Ds18x20.Pin d /\
    Ds18x20.Address d' = Ds18x20.Address d.
Proof.
  intros Hup Hchan Hin Hread Hparse Hcrc.
  exists (Ds18x20.set_scratch d (body ++ [crc])).
  eexists. split; [| repeat split].
  unfold Ds18x20.ReadScratchPad.
  rewrite (OneWireCommand_read K c _ _ packed rest _ Hup Hchan Hin Hread Hparse).
  cbn [bind]. rewrite slice_from_header. cbn [of_index bind].
  cbn [Ds18x20.set_scratch Ds18x20.scratch].
  rewrite index_last, slice_to_last. cbn [of_index bind].
  apply Z.eqb_neq in Hcrc. rewrite Hcrc. reflexivity.
Qed.

Lemma ReadScratchPad_crc_mismatch_witness :
  exists d' c',
    Ds18x20.ReadScratchPad firmata fresh_ds18b20
      (fresh_client
         [read_reply [0x50; 0x05; 0x4b; 0x46; 0x7f; 0xff; 0x0c; 0x10; 0x00]])
    = Value
        (Some (CrcMismatch 0x00 0x1c
                 [0x50; 0x05; 0x4b; 0x46; 0x7f; 0xff; 0x0c; 0x10; 0x00]),
         d', c') /\
    Ds18x20.Temperature d' = Ds18x20.Temperature fresh_ds18b20.
Proof.
  destruct (ReadScratchPad_crc_mismatch firmata fresh_ds18b20
              (fresh_client
                 [read_reply [0x50; 0x05; 0x4b; 0x46; 0x7f; 0xff; 0x0c; 0x10; 0x00]])
              (read_reply [0x50; 0x05; 0x4b; 0x46; 0x7f; 0xff; 0x0c; 0x10; 0x00])
              [] 0x34 0x12 [0x50; 0x05; 0x4b; 0x46; 0x7f; 0xff; 0x0c; 0x10] 0x00
              eq_refl eq_refl eq_refl eq_refl eq_refl
              ltac:(vm_compute; discriminate))
    as (d' & c' & Hrun & _ & Htemp & _).
  exists d', c'. split; [exact Hrun | exact Htemp].
Defined.

(** C2 as stated also keeps [scratch]; a device that has not been read yet
    holds the rejected scratchpad after the call. *)
Lemma ReadScratchPad_crc_mismatch_counterexample :
  Ds18x20.ReadScratchPad firmata fresh_ds18b20
    (fresh_client
       [read_reply [0x50; 0x05; 0x4b; 0x46; 0x7f; 0xff; 0x0c; 0x10; 0x00]])
  = Value
      (Some (CrcMismatch 0x00 0x1c
               [0x50; 0x05; 0x4b; 0x46; 0x7f; 0xff; 0x0c; 0x10; 0x00]),
       Ds18x20.set_scratch fresh_ds18b20
         [0x50; 0x05; 0x4b; 0x46; 0x7f; 0xff; 0x0c; 0x10; 0x00],
       FirmataClient.mk
         [{| FirmataClient.cmd := 0x73;
             FirmataClient.payload :=
               0x2d :: 2
                 :: OneWireRequest.Encode firmata
                      (Ds18x20.scratchpad_request firmata fresh_ds18b20) |}]
         false true []) /\
  Ds18x20.scratch fresh_ds18b20 = [] /\
  Ds18x20.scratch
    (Ds18x20.set_scratch fresh_ds18b20
       [0x50; 0x05; 0x4b; 0x46; 0x7f; 0xff; 0x0c; 0x10; 0x00])
  <> Ds18x20.scratch fresh_ds18b20.
Proof.
  split; [vm_compute; reflexivity |].
  split; [reflexivity | discriminate].
Qed.

(** [parseTemperature] writes [Temperature] and nothing else. *)
Lemma parseTemperature_frame d d1 :
  Ds18x20.parseTemperature d = Value d1 ->
  d1 = Ds18x20.set_Temperature d (Ds18x20.Temperature d1).
Proof.
  unfold Ds18x20.parseTemperature. intros H.
  destruct (index (Ds18x20.scratch d) 0); cbn [of_index bind] in H;
    [| discriminate H].
  destruct (index (Ds18x20.scratch d) 1); cbn [of_index bind] in H;
    [| discriminate H].
  destruct (index (Ds18x20.Address d) 0) as [a0 |]; cbn [of_index bind] in H;
    [| discriminate H].
  destruct (a0 =? 16).
  - destruct (index (Ds18x20.scratch d) 6); cbn [of_index bind] in H;
      [| discriminate H].
    injection H as <-. reflexivity.
  - cbn [bind] in H. injection H as <-. reflexivity.
Qed.

(** A scratchpad of nine bytes whose CRC is right: the temperature is parsed
    on the device as it is after [scratch] alone has been stored, so with the
    [ConfigRegister] of before the call; the registers are stored after. *)
Lemma ReadScratchPad_crc_ok K d c packed rest h0 h1 s0 s1 s2 s3 s4 s5 s6 s7 crc :
  FirmataClient.tx_down c = false ->
  FirmataClient.owChan c = true ->
  FirmataClient.inbound c = packed :: rest ->
  0 < Z.land (OneWireRequest.Command (Ds18x20.scratchpad_request K d)) 0x8 ->
  FirmataClient.parseOWResponse packed
  = Value (h0 :: h1 :: [s0; s1; s2; s3; s4; s5; s6; s7] ++ [crc]) ->
  OneWireCrc8 [s0; s1; s2; s3; s4; s5; s6; s7] = crc ->
  exists c',
    Ds18x20.ReadScratchPad K d c
    = (d1 <- Ds18x20.parseTemperature
               (Ds18x20.set_scratch d [s0; s1; s2; s3; s4; s5; s6; s7; crc]) ;;
       Value (None,
              Ds18x20.mk (Ds18x20.Pin d1) (Ds18x20.Address d1)
                (Ds18x20.scratch d1) (Ds18x20.Temperature d1) s2 s3 s4,
              c')).
Proof.
  intros Hup Hchan Hin Hread Hparse Hcrc.
  eexists. unfold Ds18x20.ReadScratchPad.
  rewrite (OneWireCommand_read K c _ _ packed rest _ Hup Hchan Hin Hread Hparse).
  cbn [bind]. rewrite slice_from_header. cbn [of_index bind].
  cbn [Ds18x20.set_scratch Ds18x20.scratch].
  rewrite index_last, slice_to_last. cbn [of_index bind].
  apply Z.eqb_eq in Hcrc. rewrite Hcrc. cbn [negb app].
  fold (Ds18x20.set_scratch d [s0; s1; s2; s3; s4; s5; s6; s7; crc]).
  destruct (Ds18x20.parseTemperature _) as [d1 | | |] eqn:Hd1; cbn [bind];
    try reflexivity.
  apply parseTemperature_frame in Hd1. rewrite Hd1.
  reflexivity.
Qed.

(** C3, the code at a failing input.  A device at 12 bits (configuration
    byte 0x7f) is read for the first time, so the cached [ConfigRegister] is
    still 0, which [GetResolution] reads as 9 bits.  The raw value 0x0551 is
    masked with 0xFFF8 and the temperature is 85.0, not the 85.0625 that the
    configuration byte of this very reply calls for; after the call the
    device reports 12 bits. *)
Theorem ReadScratchPad_masks_with_cached_resolution :
  let reply := [0x51; 0x05; 0x4b; 0x46; 0x7f; 0xff; 0x0c; 0x10; 0x5f] in
  let d1 := Ds18x20.mk 2 (Ds18x20.Address fresh_ds18b20) reply
              (float32_div16 (float32_of_uint16 0x0550)) 0x4b 0x46 0x7f in
  Ds18x20.GetResolution fresh_ds18b20 = 9 /\
  Ds18x20.ReadScratchPad firmata fresh_ds18b20 (fresh_client [read_reply reply])
  = Value
      (None, d1,
       FirmataClient.mk
         [{| FirmataClient.cmd := 0x73;
             FirmataClient.payload :=
               0x2d :: 2
                 :: OneWireRequest.Encode firmata
                      (Ds18x20.scratchpad_request firmata fresh_ds18b20) |}]
         false true []) /\
  Ds18x20.GetResolution d1 = 12 /\
  (Ds18x20.Temperature d1 == 85)%Q /\
  ~ (Ds18x20.Temperature d1 == float32_div16 (float32_of_uint16 0x0551))%Q.
Proof.
  cbv zeta.
  split; [reflexivity |].
  split; [vm_compute; reflexivity |].
  split; [reflexivity |].
  split; [reflexivity |].
  intros H. vm_compute in H. discriminate H.
Qed.

(** * Temperature *)

(** What [parseTemperature] computes for a device of another family than
    0x10 whose cached configuration says 12 bits: the two raw bytes as an
    unsigned 16-bit number, divided by 16. *)
Lemma parseTemperature_12bit d s0 s1 srest a0 arest :
  Ds18x20.scratch d = s0 :: s1 :: srest ->
  Ds18x20.Address d = a0 :: arest ->
  a0 <> 0x10 ->
  Ds18x20.GetResolution d = 12 ->
  Ds18x20.parseTemperature d
  = Value (Ds18x20.set_Temperature d
             (float32_div16 (float32_of_uint16 (Z.lor s0 (shl16 s1 8))))).
Proof.
  intros Hs Ha Hfam Hres. unfold Ds18x20.parseTemperature.
  rewrite Hs, Ha.
  change (index (s0 :: s1 :: srest) 0) with (Some s0).
  change (index (s0 :: s1 :: srest) 1) with (Some s1).
  change (index (a0 :: arest) 0) with (Some a0).
  cbn [of_index bind].
  apply Z.eqb_neq in Hfam. rewrite Hfam, Hres.
  reflexivity.
Qed.

(** Up to 0x7fff the unsigned number is the two's-complement number. *)
Lemma raw_nonnegative_signed s0 s1 :
  is_byte s0 -> 0 <= s1 < 128 ->
  signed16 (Z.lor s0 (shl16 s1 8)) = Z.lor s0 (shl16 s1 8)
  /\ Z.lor s0 (shl16 s1 8) = s0 + 256 * s1.
Proof.
  intros H0 H1. unfold is_byte in H0.
  assert (Hshl : shl16 s1 8 = 256 * s1).
  { unfold shl16. rewrite Z.shiftl_mul_pow2 by lia. change (2 ^ 8) with 256.
    rewrite Z.mod_small by lia. lia. }
  assert (Hlor : Z.lor s0 (shl16 s1 8) = s0 + 256 * s1).
  { rewrite Hshl. rewrite Z.or_to_plus; [reflexivity |].
    apply Z.bits_inj'. intros n Hn. rewrite Z.land_spec, Z.bits_0.
    destruct (Z.ltb_spec n 8).
    - replace (256 * s1) with (s1 * 2 ^ 8) by (change (2 ^ 8) with 256; lia).
      rewrite Z.mul_pow2_bits_low by lia. apply andb_false_r.
    - rewrite (byte_bits_high s0) by (unfold is_byte; auto; lia). reflexivity. }
  split; [| exact Hlor].
  unfold signed16. rewrite Hlor.
  replace (s0 + 256 * s1 <? 32768) with true
    by (symmetry; apply Z.ltb_lt; lia).
  reflexivity.
Qed.

Example parseTemperature_85 :
  exists d',
    Ds18x20.parseTemperature
      (Ds18x20.mk 2 [0x28; 0xff; 0x4b; 0x46; 0x7f; 0xff; 0x0c; 0x10]
         [0x50; 0x05; 0x4b; 0x46; 0x7f; 0xff; 0x0c; 0x10; 0x1c] 0 0 0 0x7f)
    = Value d' /\ (Ds18x20.Temperature d' == 85)%Q.
Proof.
  eexists. split; [vm_compute; reflexivity | reflexivity].
Qed.

(** C5, the code at a failing input.  A DS18B20 at 12 bits and -0.5 degrees
    sends the raw bytes 0xF8, 0xFF.  As a two's-complement number of
    sixteenths that is -8, so -0.5; the code converts the unsigned 16-bit
    value and yields 4095.5. *)
Theorem parseTemperature_negative_reading :
  let d := Ds18x20.mk 2 [0x28; 0xff; 0x4b; 0x46; 0x7f; 0xff; 0x0c; 0x10]
             [0xf8; 0xff; 0x4b; 0x46; 0x7f; 0xff; 0x0c; 0x10; 0xc3] 0 0 0 0x7f in
  let d' := Ds18x20.set_Temperature d
              (float32_div16 (float32_of_uint16 0xfff8)) in
  Ds18x20.GetResolution d = 12 /\
  OneWireCrc8 [0xf8; 0xff; 0x4b; 0x46; 0x7f; 0xff; 0x0c; 0x10] = 0xc3 /\
  Ds18x20.parseTemperature d = Value d' /\
  (Ds18x20.Temperature d' == 4095.5)%Q /\
  (inject_Z (signed16 0xfff8) / 16 == -0.5)%Q /\
  ~ (Ds18x20.Temperature d' == inject_Z (signed16 0xfff8) / 16)%Q.
Proof.
  cbv zeta.
  split; [reflexivity |].
  split; [reflexivity |].
  split; [vm_compute; reflexivity |].
  split; [reflexivity |].
  split; [reflexivity |].
  intros H. vm_compute in H. discriminate H.
Qed.

(** * Single bytes and small integers *)

Lemma all_bytes_spec b : is_byte b -> In b all_bytes.
Proof.
  intros Hb. unfold is_byte in Hb. unfold all_bytes.
  rewrite <- (Z2Nat.id b) by lia.
  apply in_map, in_seq. lia.
Qed.

(** A check that holds on each of the 256 bytes holds on every byte. *)
Lemma forall_bytes (P : Z -> bool) :
  forallb P all_bytes = true -> forall b, is_byte b -> P b = true.
Proof.
  intros H b Hb. rewrite forallb_forall in H. apply H, all_bytes_spec, Hb.
Qed.

Lemma forall_bytes2 (P : Z -> Z -> bool) :
  forallb (fun a => forallb (P a) all_bytes) all_bytes = true ->
  forall a b, is_byte a -> is_byte b -> P a b = true.
Proof.
  intros H a b Ha Hb.
  apply (forall_bytes (P a)); [| exact Hb].
  apply (forall_bytes (fun a => forallb (P a) all_bytes) H a Ha).
Qed.

Lemma mod128_byte x : is_byte (x mod 128).
Proof.
  unfold is_byte. pose proof (Z.mod_pos_bound x 128 ltac:(lia)). lia.
Qed.

Lemma from7Bit_low_bits b0 b1 :
  from7Bit b0 b1 = from7Bit (b0 mod 128) (b1 mod 128).
Proof.
  unfold from7Bit. change 127 with (Z.ones 7).
  rewrite !Z.land_ones by lia. change (2 ^ 7) with 128.
  rewrite !Z.mod_mod by lia. reflexivity.
Qed.

Lemma from7Bit_bytes a c :
  is_byte a -> is_byte c -> from7Bit a c = a mod 128 + 128 * (c mod 2).
Proof.
  intros Ha Hc. apply Z.eqb_eq.
  revert a c Ha Hc.
  apply (forall_bytes2 (fun a c => from7Bit a c =? a mod 128 + 128 * (c mod 2))).
  vm_compute. reflexivity.
Qed.

(** [from7Bit] keeps the low seven bits of its first argument and the lowest
    bit of its second; every other bit of the two is dropped. *)
Theorem from7Bit_value b0 b1 :
  from7Bit b0 b1 = b0 mod 128 + 128 * (b1 mod 2) /\ is_byte (from7Bit b0 b1).
Proof.
  assert (H : from7Bit b0 b1 = b0 mod 128 + 128 * (b1 mod 2)).
  { rewrite from7Bit_low_bits.
    rewrite from7Bit_bytes by apply mod128_byte.
    rewrite Z.mod_mod by lia.
    f_equal. f_equal. Z.div_mod_to_equations. lia. }
  split; [exact H |].
  rewrite H. unfold is_byte.
  pose proof (Z.mod_pos_bound b0 128 ltac:(lia)).
  pose proof (Z.mod_pos_bound b1 2 ltac:(lia)). lia.
Qed.

Lemma to7Bit_from7Bit_check i :
  is_byte i -> from7Bit (Z.land i 0x7f) (Z.land (shr8 i 7) 0x7f) = i.
Proof.
  intros Hi. apply Z.eqb_eq. revert i Hi.
  apply (forall_bytes
           (fun i => from7Bit (Z.land i 0x7f) (Z.land (shr8 i 7) 0x7f) =? i)).
  vm_compute. reflexivity.
Qed.

(** [to7Bit] splits a byte into two bytes with a clear top bit, and
    [from7Bit] puts them together again. *)
Theorem from7Bit_to7Bit i :
  is_byte i ->
  exists lo hi,
    to7Bit i = [lo; hi] /\ msb_clear lo /\ msb_clear hi /\ hi <= 1 /\
    from7Bit lo hi = i.
Proof.
  intros Hi.
  exists (Z.land i 0x7f), (Z.land (shr8 i 7) 0x7f).
  split; [reflexivity |].
  split; [apply msb_clear_iff, land_0x7f_range |].
  split; [apply msb_clear_iff, land_0x7f_range |].
  split; [| apply to7Bit_from7Bit_check, Hi].
  pose proof (shr8_range i 7 Hi ltac:(lia)) as Hr.
  change (2 ^ (8 - 7)) with 2 in Hr.
  change 127 with (Z.ones 7). rewrite Z.land_ones by lia.
  rewrite Z.mod_small by (change (2 ^ 7) with 128; lia). lia.
Qed.

Lemma from7Bit_to7Bit_witness :
  is_byte 0xe9 /\
  exists lo hi,
    to7Bit 0xe9 = [lo; hi] /\ msb_clear lo /\ msb_clear hi /\ hi <= 1 /\
    from7Bit lo hi = 0xe9.
Proof.
  assert (H : is_byte 0xe9) by (unfold is_byte; lia).
  split; [exact H | exact (from7Bit_to7Bit 0xe9 H)].
Defined.

Lemma septet_at i k :
  0 <= k -> byte_of (Z.land (Z.shiftr i k) 0x7f) = (i / 2 ^ k) mod 128.
Proof.
  intros Hk. unfold byte_of. change 127 with (Z.ones 7).
  rewrite Z.land_ones, Z.shiftr_div_pow2 by lia. change (2 ^ 7) with 128.
  pose proof (Z.mod_pos_bound (i / 2 ^ k) 128 ltac:(lia)).
  apply Z.mod_small. lia.
Qed.

(** [intto7Bit] gives the three base-128 digits, lowest first, of the low 21
    bits of its argument; higher bits, and the sign, are dropped. *)
Theorem intto7Bit_digits i :
  exists b0 b1 b2,
    intto7Bit i = [b0; b1; b2] /\
    msb_clear b0 /\ msb_clear b1 /\ msb_clear b2 /\
    b0 + 128 * b1 + 16384 * b2 = i mod 2097152.
Proof.
  exists (i mod 128), ((i / 128) mod 128), ((i / 16384) mod 128).
  split.
  - unfold intto7Bit.
    rewrite <- (Z.shiftr_0_r i) at 1.
    rewrite (septet_at i 0), (septet_at i 7), (septet_at i 14) by lia.
    change (2 ^ 0) with 1. rewrite Z.div_1_r. reflexivity.
  - repeat split; try (apply msb_clear_iff, Z.mod_pos_bound; lia);
      try (apply Z.mod_pos_bound; lia).
    all: try (pose proof (Z.mod_pos_bound i 128 ltac:(lia));
              pose proof (Z.mod_pos_bound (i / 128) 128 ltac:(lia));
              pose proof (Z.mod_pos_bound (i / 16384) 128 ltac:(lia)); lia).
    Z.div_mod_to_equations. lia.
Qed.

(** * Shape of the packed and unpacked buffers *)

Lemma to7_loop_state data :
  forall shift prev res,
    to7_loop data shift prev res
    = (let '(s, p, r) := to7_state data shift prev res in
       if 0 <? s then r ++ [p] else r).
Proof.
  induction data as [| b rest IH]; intros shift prev res.
  - reflexivity.
  - cbn [to7_loop to7_state].
    destruct (shift =? 0); [apply IH |].
    destruct (shift =? 6); apply IH.
Qed.

Lemma to7_state_app a :
  forall b shift prev res,
    to7_state (a ++ b) shift prev res
    = (let '(s, p, r) := to7_state a shift prev res in to7_state b s p r).
Proof.
  induction a as [| x a IH]; intros b shift prev res.
  - reflexivity.
  - cbn [app to7_state].
    destruct (shift =? 0); [apply IH |].
    destruct (shift =? 6); apply IH.
Qed.

(** After [data] the shift is the number of bytes taken modulo 7, and the
    output has one byte for each input byte and one more for each full group
    of seven. *)
Lemma to7_state_shape data :
  forall shift prev res,
    0 <= shift <= 6 ->
    let '(s, _, r) := to7_state data shift prev res in
    s = (shift + len data) mod 7 /\
    len r = len res + len data + (shift + len data) / 7.
Proof.
  induction data as [| b rest IH]; intros shift prev res Hs.
  - cbn [to7_state]. unfold len. cbn [length].
    rewrite Z.add_0_r, Z.mod_small, Z.div_small by lia. lia.
  - cbn [to7_state].
    assert (Hlen : len (b :: rest) = len rest + 1)
      by (unfold len; cbn [length]; lia).
    destruct (Z.eqb_spec shift 0) as [-> | H0].
    + specialize (IH (0 + 1) (shr8 b 7) (res ++ [Z.land b 0x7f]) ltac:(lia)).
      destruct (to7_state rest _ _ _) as [[s p] r].
      rewrite Hlen. unfold len in *. rewrite length_app in IH. cbn [length] in IH.
      replace (0 + (Z.of_nat (length rest) + 1))
        with (0 + 1 + Z.of_nat (length rest)) by lia.
      lia.
    + destruct (Z.eqb_spec shift 6) as [-> | H6].
      * specialize (IH 0 prev
                      ((res ++ [Z.lor (Z.land (shl8 b 6) 0x7f) prev])
                         ++ [shr8 b 1]) ltac:(lia)).
        destruct (to7_state rest _ _ _) as [[s p] r].
        rewrite Hlen. unfold len in *. rewrite !length_app in IH.
        cbn [length] in IH.
        replace (6 + (Z.of_nat (length rest) + 1))
          with (0 + Z.of_nat (length rest) + 1 * 7) by lia.
        rewrite Z.mod_add, Z.div_add by lia. lia.
      * specialize (IH (shift + 1) (shr8 b (8 - (shift + 1)))
                      (res ++ [Z.lor (Z.land (shl8 b shift) 0x7f) prev])
                      ltac:(lia)).
        destruct (to7_state rest _ _ _) as [[s p] r].
        rewrite Hlen. unfold len in *. rewrite length_app in IH.
        cbn [length] in IH.
        replace (shift + (Z.of_nat (length rest) + 1))
          with (shift + 1 + Z.of_nat (length rest)) by lia.
        lia.
Qed.

(** [To7BitMulti] turns [n] bytes into [n] plus [n/7] rounded up: eight
    packed bytes for every seven, and one carry byte after a shorter rest. *)
Theorem To7BitMulti_length data :
  len (To7BitMulti data) = len data + (len data + 6) / 7.
Proof.
  unfold To7BitMulti. rewrite to7_loop_state.
  pose proof (to7_state_shape data 0 0 [] ltac:(lia)) as H.
  destruct (to7_state data 0 0 []) as [[s p] r].
  destruct H as [Hs Hr].
  change (len []) with 0 in Hr. rewrite Z.add_0_l in Hs, Hr.
  assert (Hn : 0 <= len data) by (unfold len; lia).
  destruct (Z.ltb_spec 0 s) as [Hpos | Hzero].
  - unfold len in *. rewrite length_app. cbn [length].
    Z.div_mod_to_equations. lia.
  - Z.div_mod_to_equations. lia.
Qed.

Lemma to7_loop_acc data :
  forall shift prev res,
    to7_loop data shift prev res = res ++ to7_loop data shift prev [].
Proof.
  induction data as [| b rest IH]; intros shift prev res.
  - cbn [to7_loop]. destruct (0 <? shift); [reflexivity | now rewrite app_nil_r].
  - cbn [to7_loop].
    destruct (shift =? 0).
    + rewrite IH, (IH _ _ ([] ++ _)), app_assoc. reflexivity.
    + destruct (shift =? 6).
      * rewrite IH, (IH _ _ (([] ++ _) ++ _)). cbn [app].
        rewrite <- !app_assoc. reflexivity.
      * rewrite IH, (IH _ _ ([] ++ _)), app_assoc. reflexivity.
Qed.

Lemma to7_loop_fresh_carry data prev res :
  to7_loop data 0 prev res = to7_loop data 0 0 res.
Proof.
  destruct data; reflexivity.
Qed.

(** Packing works group by group: behind a prefix whose length is a multiple
    of seven, the rest is packed as if it stood alone. *)
Theorem To7BitMulti_app a b :
  len a mod 7 = 0 ->
  To7BitMulti (a ++ b) = To7BitMulti a ++ To7BitMulti b.
Proof.
  intros Ha. unfold To7BitMulti.
  rewrite (to7_loop_state (a ++ b)), to7_state_app, (to7_loop_state a).
  pose proof (to7_state_shape a 0 0 [] ltac:(lia)) as H.
  destruct (to7_state a 0 0 []) as [[s p] r].
  destruct H as [Hs _]. rewrite Z.add_0_l, Ha in Hs. subst s.
  cbn [Z.ltb Z.compare].
  rewrite <- (to7_loop_state b), to7_loop_fresh_carry.
  apply to7_loop_acc.
Qed.

Lemma To7BitMulti_app_witness :
  len [1; 2; 3; 4; 5; 6; 0xff] mod 7 = 0 /\
  To7BitMulti ([1; 2; 3; 4; 5; 6; 0xff] ++ [0x80; 9])
  = To7BitMulti [1; 2; 3; 4; 5; 6; 0xff] ++ To7BitMulti [0x80; 9].
Proof.
  split; [reflexivity |].
  exact (To7BitMulti_app [1; 2; 3; 4; 5; 6; 0xff] [0x80; 9] eq_refl).
Defined.

Lemma le_bytes_are_bytes n v : Forall is_byte (le_bytes n v).
Proof.
  unfold le_bytes. apply Forall_map, Forall_forall. intros k _.
  unfold is_byte. apply Z.mod_pos_bound. lia.
Qed.

(** What [Encode] returns is safe for the 7-bit transport whenever the
    address and the write data are bytes. *)
Theorem Encode_msb_clear K r :
  Forall is_byte (OneWireRequest.Address r) ->
  Forall is_byte (OneWireRequest.Data r) ->
  Forall msb_clear (OneWireRequest.Encode K r).
Proof.
  intros Haddr Hdata. rewrite Encode_body. unfold To7BitMulti.
  apply to7_loop_msb_clear; [| lia | lia | constructor].
  unfold request_body.
  destruct (has_flag _ (OW_SELECT K)), (has_flag _ (OW_READ K)),
    (has_flag _ (OW_DELAY K)), (has_flag _ (OW_WRITE K));
    repeat (apply Forall_app; split);
    auto using le_bytes_are_bytes.
Qed.

Lemma Encode_msb_clear_witness :
  Forall msb_clear
    (OneWireRequest.Encode firmata
       (OneWireRequest.mk 0x2d [0x28; 0xff; 0x4b; 0x46; 0x7f; 0xff; 0x0c; 0x10]
          9 0x1234 0 [0xbe])).
Proof.
  apply Encode_msb_clear; repeat constructor; unfold is_byte; cbn; lia.
Defined.

Lemma lor_range8 a b : is_byte a -> is_byte b -> is_byte (Z.lor a b).
Proof.
  unfold is_byte. intros Ha Hb. split; [apply Z.lor_nonneg; lia |].
  rewrite <- (Z.mod_small a (2 ^ 8)), <- (Z.mod_small b (2 ^ 8))
    by (change (2 ^ 8) with 256; lia).
  rewrite <- !Z.land_ones, <- Z.land_lor_distr_l, Z.land_ones by lia.
  change (2 ^ 8) with 256. apply Z.mod_pos_bound. lia.
Qed.

Lemma index_In s i x : index s i = Some x -> In x s.
Proof.
  unfold index. destruct (i <? 0); [discriminate |]. apply nth_error_In.
Qed.

Lemma from7_loop_shape fuel :
  forall data i shift res out,
    Forall is_byte data -> Forall is_byte res ->
    0 <= i -> 0 <= shift <= 6 ->
    from7_loop fuel data i shift res = Value out ->
    Forall is_byte out /\
    len out <= len res + Z.max 0 (len data - 3 - i).
Proof.
  induction fuel as [| fuel IH]; intros data i shift res out Hdata Hres Hi Hs Hrun.
  - discriminate Hrun.
  - cbn [from7_loop] in Hrun.
    destruct (Z.ltb_spec i (len data - 3)) as [Hlt | Hge].
    + destruct (index data _) as [dj |] eqn:Ej; [| discriminate Hrun].
      destruct (index data (_ + 1)) as [dj1 |] eqn:Ej1; [| discriminate Hrun].
      apply IH in Hrun; try assumption.
      * destruct Hrun as [Hout Hlen]. split; [exact Hout |].
        unfold len in *. rewrite length_app in Hlen. cbn [length] in Hlen.
        destruct ((0 <? i) && (i mod 7 =? 0)); lia.
      * apply Forall_app. split; [exact Hres |]. constructor; [| constructor].
        apply lor_range8.
        -- apply index_In in Ej.
           pose proof (proj1 (Forall_forall _ _) Hdata _ Ej) as Hb.
           unfold is_byte in *. unfold shr8.
           rewrite Z.shiftr_div_pow2 by lia.
           pose proof (Z.pow_pos_nonneg 2 shift ltac:(lia) ltac:(lia)) as Hpow.
           split; [apply Z.div_pos; lia |].
           apply Z.div_lt_upper_bound; [lia | nia].
        -- unfold shl8, byte_of, is_byte. apply Z.mod_pos_bound. lia.
      * destruct ((0 <? i) && (i mod 7 =? 0)); lia.
      * destruct (6 <? shift + 1) eqn:E; [lia |].
        apply Z.ltb_ge in E. lia.
    + injection Hrun as <-. split; [exact Hres | lia].
Qed.

(** Whatever [From7BitMulti] returns consists of bytes and is at least three
    elements shorter than its input: two for the header and one for the look
    ahead. *)
Theorem From7BitMulti_shape data out :
  Forall is_byte data ->
  From7BitMulti data = Value out ->
  Forall is_byte out /\ len out <= Z.max 0 (len data - 3).
Proof.
  intros Hdata Hrun. unfold From7BitMulti in Hrun.
  apply from7_loop_shape in Hrun; try assumption; try lia; [| constructor].
  change (len []) with 0 in Hrun. rewrite Z.sub_0_r in Hrun.
  exact Hrun.
Qed.

Lemma From7BitMulti_shape_witness :
  Forall is_byte [0x43; 0x02; 0x7f; 0x01; 0x55; 0x2a] /\
  From7BitMulti [0x43; 0x02; 0x7f; 0x01; 0x55; 0x2a] = Value [0xff; 0x40; 0x55] /\
  Forall is_byte [0xff; 0x40; 0x55] /\
  len [0xff; 0x40; 0x55] <= Z.max 0 (len [0x43; 0x02; 0x7f; 0x01; 0x55; 0x2a] - 3).
Proof.
  assert (H : Forall is_byte [0x43; 0x02; 0x7f; 0x01; 0x55; 0x2a])
    by (repeat constructor; unfold is_byte; lia).
  split; [exact H |]. split; [reflexivity |].
  exact (From7BitMulti_shape _ _ H eq_refl).
Defined.

Lemma From7BitMulti_header_14_panics_witness :
  length [1; 2; 3; 4; 5; 6; 7; 8; 9; 10; 11; 12; 13; 14] = 14%nat /\
  From7BitMulti
    (0x42 :: 0x02 :: To7BitMulti [1; 2; 3; 4; 5; 6; 7; 8; 9; 10; 11; 12; 13; 14])
  = IndexPanic.
Proof.
  split; [reflexivity |].
  exact (From7BitMulti_header_14_panics 0x42 0x02
           [1; 2; 3; 4; 5; 6; 7; 8; 9; 10; 11; 12; 13; 14] eq_refl).
Defined.

(** * Strings *)

Lemma flat_map_after_map {A B C : Type} (f : B -> list C) (g : A -> B) l :
  flat_map f (map g l) = flat_map (fun x => f (g x)) l.
Proof.
  induction l as [| x l IH]; [reflexivity |].
  cbn [map flat_map]. now rewrite IH.
Qed.

Lemma multibyte_loop_pairs n :
  forall data str,
    length data = (2 * n)%nat ->
    multibyte_loop data str
    = Value (str ++ flat_map
                      (fun k => string_of_byte
                                  (from7Bit (nth (2 * k) data 0)
                                            (nth (2 * k + 1) data 0)))
                      (seq 0 n)).
Proof.
  induction n as [| n IH]; intros data str Hlen.
  - destruct data; [| discriminate Hlen]. cbn. now rewrite app_nil_r.
  - destruct data as [| b0 [| b1 rest]]; try (cbn in Hlen; lia).
    cbn [multibyte_loop]. rewrite IH by (cbn [length] in Hlen; lia).
    cbn [seq flat_map]. rewrite <- seq_shift, flat_map_after_map, <- app_assoc.
    do 2 f_equal. f_equal.
    apply flat_map_ext. intros k.
    replace (2 * S k)%nat with (S (S (2 * k))) by lia.
    reflexivity.
Qed.

Lemma nth_padded data i : nth i (data ++ [0]) 0 = nth i data 0.
Proof.
  destruct (Nat.lt_ge_cases i (length data)) as [Hlt | Hge].
  - apply app_nth1, Hlt.
  - rewrite app_nth2, (nth_overflow data) by lia.
    destruct (i - length data)%nat as [| [| m]]; reflexivity.
Qed.

(** [multibyteString] never reads out of range: it returns one character for
    every pair of input bytes, and an odd last byte is paired with zero. *)
Theorem multibyteString_pairs data :
  multibyteString data
  = Value (flat_map
             (fun k => string_of_byte
                         (from7Bit (nth (2 * k) data 0) (nth (2 * k + 1) data 0)))
             (seq 0 ((length data + 1) / 2))).
Proof.
  unfold multibyteString, len.
  pose proof (Nat.div_mod_eq (length data) 2) as Hdiv.
  pose proof (Nat.mod_upper_bound (length data) 2 ltac:(lia)) as Hmod.
  destruct (Z.eqb_spec (Z.of_nat (length data) mod 2) 0) as [Heven | Hodd];
    cbn [negb].
  - assert (Hm : (length data mod 2 = 0)%nat).
    { apply Nat2Z.inj. rewrite Nat2Z.inj_mod. exact Heven. }
    rewrite (multibyte_loop_pairs (length data / 2)) by lia.
    replace ((length data + 1) / 2)%nat with (length data / 2)%nat.
    2:{ rewrite (Nat.div_mod_eq (length data) 2) at 2. rewrite Hm.
        replace (2 * (length data / 2) + 0 + 1)%nat
          with (1 + (length data / 2) * 2)%nat by lia.
        rewrite Nat.div_add by lia. reflexivity. }
    reflexivity.
  - assert (Hm : (length data mod 2 = 1)%nat).
    { assert (length data mod 2 <> 0)%nat; [| lia].
      intros E. apply Hodd. rewrite <- Nat2Z.inj_mod with (m := 2%nat), E.
      reflexivity. }
    assert (Hhalf : ((length data + 1) / 2 = length data / 2 + 1)%nat).
    { rewrite (Nat.div_mod_eq (length data) 2) at 1. rewrite Hm.
      replace (2 * (length data / 2) + 1 + 1)%nat
        with ((length data / 2 + 1) * 2)%nat by lia.
      apply Nat.div_mul. lia. }
    rewrite (multibyte_loop_pairs ((length data + 1) / 2))
      by (rewrite length_app; cbn [length]; lia).
    cbn [app]. f_equal. apply flat_map_ext. intros k.
    rewrite !nth_padded. reflexivity.
Qed.

Lemma multibyte_loop_to7Bit cs :
  forall str,
    Forall is_byte cs ->
    multibyte_loop (flat_map to7Bit cs) str
    = Value (str ++ flat_map string_of_byte cs).
Proof.
  induction cs as [| c cs IH]; intros str Hcs.
  - cbn. now rewrite app_nil_r.
  - inversion Hcs as [| ? ? Hc Hrest]; subst.
    cbn [flat_map to7Bit app multibyte_loop].
    rewrite to7Bit_from7Bit_check by exact Hc.
    rewrite IH by exact Hrest.
    now rewrite <- app_assoc.
Qed.

Lemma flat_map_to7Bit_length cs : length (flat_map to7Bit cs) = (2 * length cs)%nat.
Proof.
  induction cs as [| c cs IH]; [reflexivity |].
  cbn [flat_map to7Bit app length]. rewrite IH. lia.
Qed.

Lemma flat_map_ascii cs :
  Forall (fun c => 0 <= c < 128) cs -> flat_map string_of_byte cs = cs.
Proof.
  induction 1 as [| c cs Hc _ IH]; [reflexivity |].
  cbn [flat_map]. unfold string_of_byte at 1.
  replace (c <? 128) with true by (symmetry; apply Z.ltb_lt; lia).
  cbn [app]. now rewrite IH.
Qed.

(** Characters sent the Firmata way, each as the two bytes of [to7Bit], come
    back from [multibyteString]: as themselves when they are ASCII, and as
    their two-byte UTF-8 form from 0x80 on. *)
Theorem multibyteString_to7Bit cs :
  Forall is_byte cs ->
  multibyteString (flat_map to7Bit cs) = Value (flat_map string_of_byte cs) /\
  (Forall (fun c => 0 <= c < 128) cs ->
   multibyteString (flat_map to7Bit cs) = Value cs).
Proof.
  intros Hcs.
  assert (H : multibyteString (flat_map to7Bit cs)
              = Value (flat_map string_of_byte cs)).
  { unfold multibyteString, len. rewrite flat_map_to7Bit_length.
    replace (Z.of_nat (2 * length cs) mod 2) with 0
      by (rewrite Nat2Z.inj_mul, Z.mul_comm, Z.mod_mul; lia).
    cbn [Z.eqb negb].
    rewrite multibyte_loop_to7Bit by exact Hcs. reflexivity. }
  split; [exact H |].
  intros Hascii. rewrite H, flat_map_ascii by exact Hascii. reflexivity.
Qed.

Lemma multibyteString_to7Bit_witness :
  Forall is_byte [0x53; 0x74; 0x64; 0xe9] /\
  multibyteString (flat_map to7Bit [0x53; 0x74; 0x64; 0xe9])
  = Value [0x53; 0x74; 0x64; 0xc3; 0xa9] /\
  Forall (fun c => 0 <= c < 128) [0x53; 0x74; 0x64] /\
  multibyteString (flat_map to7Bit [0x53; 0x74; 0x64]) = Value [0x53; 0x74; 0x64].
Proof.
  assert (H4 : Forall is_byte [0x53; 0x74; 0x64; 0xe9])
    by (repeat constructor; unfold is_byte; lia).
  assert (H3 : Forall is_byte [0x53; 0x74; 0x64])
    by (repeat constructor; unfold is_byte; lia).
  assert (A3 : Forall (fun c => 0 <= c < 128) [0x53; 0x74; 0x64])
    by (repeat constructor; lia).
  split; [exact H4 |].
  split; [exact (proj1 (multibyteString_to7Bit _ H4)) |].
  split; [exact A3 |].
  exact (proj2 (multibyteString_to7Bit _ H3) A3).
Defined.

(** * The CRC *)

Lemma lxor_range8 a b : is_byte a -> is_byte b -> is_byte (Z.lxor a b).
Proof.
  unfold is_byte. intros Ha Hb.
  assert (Hnn : 0 <= Z.lxor a b) by (apply Z.lxor_nonneg; lia).
  split; [exact Hnn |].
  destruct (Z.eq_dec (Z.lxor a b) 0) as [E | E]; [lia |].
  apply (Z.log2_lt_pow2 _ 8); [lia |].
  assert (Hlog : forall x, 0 <= x < 256 -> Z.log2 x < 8).
  { intros x Hx. destruct (Z.eq_dec x 0) as [-> | Hx0]; [cbn; lia |].
    apply Z.log2_lt_pow2; [lia | change (2 ^ 8) with 256; lia]. }
  pose proof (Z.log2_lxor a b ltac:(lia) ltac:(lia)).
  pose proof (Hlog a Ha). pose proof (Hlog b Hb). lia.
Qed.

(** The running CRC is a byte whatever is fed in. *)
Lemma crc8_rounds_byte n :
  forall crc b, is_byte crc -> is_byte (crc8_rounds n crc b).
Proof.
  induction n as [| n IH]; intros crc b Hcrc; cbn [crc8_rounds].
  - exact Hcrc.
  - apply IH.
    pose proof (shr8_range crc 1 Hcrc ltac:(lia)) as Hr.
    change (2 ^ (8 - 1)) with 128 in Hr.
    destruct (0 <? Z.land (Z.lxor crc b) 1).
    + apply lxor_range8; unfold is_byte; lia.
    + unfold is_byte. lia.
Qed.

Lemma OneWireCrc8_from crc data :
  is_byte crc ->
  is_byte (fold_left (fun crc b => crc8_rounds 8 crc b) data crc).
Proof.
  revert crc. induction data as [| b rest IH]; intros crc Hcrc; cbn [fold_left].
  - exact Hcrc.
  - apply IH, crc8_rounds_byte, Hcrc.
Qed.

Lemma OneWireCrc8_byte data : is_byte (OneWireCrc8 data).
Proof.
  apply OneWireCrc8_from. unfold is_byte. lia.
Qed.

(** The rounds on a byte depend on the running CRC and the byte through their
    exclusive or alone, up to what is left of the byte after the shifts. *)
Lemma crc8_rounds_lxor n :
  forall crc b,
    crc8_rounds n crc b
    = Z.lxor (crc8_rounds n (Z.lxor crc b) 0) (Z.shiftr b (Z.of_nat n)).
Proof.
  induction n as [| n IH]; intros crc b.
  - cbn [crc8_rounds Z.of_nat]. rewrite Z.shiftr_0_r.
    rewrite Z.lxor_assoc, Z.lxor_nilpotent, Z.lxor_0_r. reflexivity.
  - cbn [crc8_rounds]. unfold shr8.
    rewrite IH.
    rewrite Z.shiftr_shiftr by lia.
    replace (1 + Z.of_nat n) with (Z.of_nat (S n)) by lia.
    f_equal. rewrite Z.lxor_0_r, Z.shiftr_0_l. f_equal.
    rewrite Z.shiftr_lxor.
    destruct (0 <? Z.land (Z.lxor crc b) 1).
    + rewrite !Z.lxor_assoc. f_equal. apply Z.lxor_comm.
    + reflexivity.
Qed.

Lemma crc8_step_table crc b :
  is_byte b -> crc8_rounds 8 crc b = crc8_rounds 8 (Z.lxor crc b) 0.
Proof.
  intros Hb. rewrite crc8_rounds_lxor.
  replace (Z.shiftr b (Z.of_nat 8)) with 0; [apply Z.lxor_0_r |].
  symmetry. apply Z.shiftr_eq_0; [unfold is_byte in Hb; lia |].
  destruct (Z.eq_dec b 0) as [-> | Hb0]; [cbn; lia |].
  apply Z.log2_lt_pow2; unfold is_byte in Hb; [lia |].
  change (2 ^ Z.of_nat 8) with 256. lia.
Qed.

(** The 256 entries of the table of the CRC are pairwise different. *)
Lemma crc8_table_injective d d' :
  is_byte d -> is_byte d' ->
  crc8_rounds 8 d 0 = crc8_rounds 8 d' 0 -> d = d'.
Proof.
  intros Hd Hd' H.
  pose proof (forall_bytes2
                (fun d d' =>
                   implb (crc8_rounds 8 d 0 =? crc8_rounds 8 d' 0) (d =? d'))
                ltac:(vm_compute; reflexivity) d d' Hd Hd') as Hcheck.
  cbv beta in Hcheck. apply Z.eqb_eq in H. rewrite H in Hcheck.
  apply Z.eqb_eq. exact Hcheck.
Qed.


Lemma crc8_step_injective crc crc' b b' :
  is_byte crc -> is_byte crc' -> is_byte b -> is_byte b' ->
  crc8_rounds 8 crc b = crc8_rounds 8 crc' b' ->
  Z.lxor crc b = Z.lxor crc' b'.
Proof.
  intros Hc Hc' Hb Hb' H.
  rewrite (crc8_step_table crc b Hb), (crc8_step_table crc' b' Hb') in H.
  apply crc8_table_injective in H; auto using lxor_range8.
Qed.

Lemma lxor_cancel_l a b b' : Z.lxor a b = Z.lxor a b' -> b = b'.
Proof.
  intros H.
  rewrite <- (Z.lxor_0_l b), <- (Z.lxor_0_l b'), <- (Z.lxor_nilpotent a).
  rewrite !Z.lxor_assoc, H. reflexivity.
Qed.

Lemma lxor_cancel_r a a' b : Z.lxor a b = Z.lxor a' b -> a = a'.
Proof.
  rewrite (Z.lxor_comm a b), (Z.lxor_comm a' b). apply lxor_cancel_l.
Qed.

Lemma OneWireCrc8_app data x :
  OneWireCrc8 (data ++ [x]) = crc8_rounds 8 (OneWireCrc8 data) x.
Proof.
  unfold OneWireCrc8. rewrite fold_left_app. reflexivity.
Qed.

(** A buffer followed by a check byte has CRC zero exactly when the check
    byte is the CRC of the buffer; so the test of [ReadScratchPad] is the
    test that the CRC of the whole scratchpad is zero. *)
Theorem OneWireCrc8_residue data x :
  is_byte x ->
  (OneWireCrc8 (data ++ [x]) = 0 <-> x = OneWireCrc8 data).
Proof.
  intros Hx. rewrite OneWireCrc8_app.
  pose proof (OneWireCrc8_byte data) as Hc.
  assert (H0 : is_byte 0) by (unfold is_byte; lia).
  split.
  - intros H.
    assert (H' : crc8_rounds 8 (OneWireCrc8 data) x = crc8_rounds 8 0 0)
      by exact H.
    clear H. rename H' into H.
    apply crc8_step_injective in H; try assumption.
    rewrite Z.lxor_0_r in H. apply Z.lxor_eq in H. symmetry. exact H.
  - intros ->. rewrite crc8_step_table by exact Hc.
    rewrite Z.lxor_nilpotent. reflexivity.
Qed.

Lemma OneWireCrc8_residue_witness :
  is_byte 0x1c /\
  (OneWireCrc8 ([0x50; 0x05; 0x4b; 0x46; 0x7f; 0xff; 0x0c; 0x10] ++ [0x1c]) = 0
   <-> 0x1c = OneWireCrc8 [0x50; 0x05; 0x4b; 0x46; 0x7f; 0xff; 0x0c; 0x10]).
Proof.
  assert (H : is_byte 0x1c) by (unfold is_byte; lia).
  split; [exact H | exact (OneWireCrc8_residue _ 0x1c H)].
Defined.

Lemma crc8_tail_differs post :
  forall crc crc',
    Forall is_byte post -> is_byte crc -> is_byte crc' -> crc <> crc' ->
    fold_left (fun crc b => crc8_rounds 8 crc b) post crc
    <> fold_left (fun crc b => crc8_rounds 8 crc b) post crc'.
Proof.
  induction post as [| p post IH]; intros crc crc' Hpost Hc Hc' Hne;
    cbn [fold_left].
  - exact Hne.
  - inversion Hpost as [| ? ? Hp Hrest]; subst.
    apply IH; auto using crc8_rounds_byte.
    intros H. apply crc8_step_injective in H; try assumption.
    apply Hne, (lxor_cancel_r _ _ p), H.
Qed.

(** The CRC detects every change that is confined to one byte: two buffers
    that differ in exactly one position have different CRCs. *)
Theorem OneWireCrc8_detects_one_byte pre b b' post :
  is_byte b -> is_byte b' -> Forall is_byte post -> b <> b' ->
  OneWireCrc8 (pre ++ b :: post) <> OneWireCrc8 (pre ++ b' :: post).
Proof.
  intros Hb Hb' Hpost Hne. unfold OneWireCrc8.
  rewrite !fold_left_app. cbn [fold_left].
  fold (OneWireCrc8 pre).
  pose proof (OneWireCrc8_byte pre) as Hc.
  apply crc8_tail_differs; auto using crc8_rounds_byte.
  intros H. apply crc8_step_injective in H; try assumption.
  apply Hne, (lxor_cancel_l (OneWireCrc8 pre)), H.
Qed.

Lemma OneWireCrc8_detects_one_byte_witness :
  OneWireCrc8 ([0x50; 0x05] ++ 0x4b :: [0x46; 0x7f; 0xff; 0x0c; 0x10])
  <> OneWireCrc8 ([0x50; 0x05] ++ 0x4a :: [0x46; 0x7f; 0xff; 0x0c; 0x10]).
Proof.
  apply OneWireCrc8_detects_one_byte;
    [unfold is_byte; lia | unfold is_byte; lia
    | repeat constructor; unfold is_byte; lia | discriminate].
Defined.

(** * Resolution and temperature *)

Lemma GetResolution_value d :
  Ds18x20.GetResolution d = 9 + (Ds18x20.ConfigRegister d / 32) mod 4.
Proof.
  unfold Ds18x20.GetResolution, shr8, byte_of.
  change 3 with (Z.ones 2). rewrite Z.land_ones, Z.shiftr_div_pow2 by lia.
  change (2 ^ 2) with 4. change (2 ^ 5) with 32.
  pose proof (Z.mod_pos_bound (Ds18x20.ConfigRegister d / 32) 4 ltac:(lia)).
  rewrite Z.mod_small by lia. lia.
Qed.

(** Whatever the configuration register holds, [GetResolution] answers 9, 10,
    11 or 12: 9 plus the two bits 5 and 6 of the register. *)
Theorem GetResolution_range d :
  9 <= Ds18x20.GetResolution d <= 12 /\
  Ds18x20.GetResolution d = 9 + (Ds18x20.ConfigRegister d / 32) mod 4.
Proof.
  pose proof (GetResolution_value d) as H.
  pose proof (Z.mod_pos_bound (Ds18x20.ConfigRegister d / 32) 4 ltac:(lia)).
  split; [lia | exact H].
Qed.

Lemma raw_value s0 s1 :
  is_byte s0 -> is_byte s1 ->
  Z.lor s0 (shl16 s1 8) = s0 + 256 * s1.
Proof.
  intros H0 H1. unfold is_byte in *.
  assert (Hshl : shl16 s1 8 = 256 * s1).
  { unfold shl16. rewrite Z.shiftl_mul_pow2 by lia. change (2 ^ 8) with 256.
    rewrite Z.mod_small by lia. lia. }
  rewrite Hshl. rewrite Z.or_to_plus; [reflexivity |].
  apply Z.bits_inj'. intros n Hn. rewrite Z.land_spec, Z.bits_0.
  destruct (Z.ltb_spec n 8).
  - replace (256 * s1) with (s1 * 2 ^ 8) by (change (2 ^ 8) with 256; lia).
    rewrite Z.mul_pow2_bits_low by lia. apply andb_false_r.
  - rewrite (byte_bits_high s0) by (unfold is_byte; auto; lia). reflexivity.
Qed.

(** Clearing the [k] low bits of a 16-bit value with a mask. *)
Lemma mask_low_bits raw k :
  0 <= raw < 65536 -> 0 <= k <= 16 ->
  Z.land raw (Z.shiftl (Z.ones (16 - k)) k) = raw - raw mod 2 ^ k.
Proof.
  intros Hraw Hk.
  assert (E : Z.land raw (Z.shiftl (Z.ones (16 - k)) k)
              = Z.shiftl (Z.shiftr raw k) k).
  { apply Z.bits_inj'. intros n Hn.
    rewrite Z.land_spec, !Z.shiftl_spec by lia.
    destruct (Z.ltb_spec n k) as [Hlt | Hge].
    - rewrite (Z.testbit_neg_r (Z.ones (16 - k))),
        (Z.testbit_neg_r (Z.shiftr raw k)) by lia.
      apply andb_false_r.
    - rewrite Z.shiftr_spec by lia. replace (n - k + k) with n by lia.
      rewrite Z.testbit_ones_nonneg by lia.
      destruct (Z.ltb_spec (n - k) (16 - k)) as [Hin | Hout].
      + apply andb_true_r.
      + rewrite andb_false_r. symmetry.
        rewrite <- (Z.mod_small raw (2 ^ 16)) by (change (2 ^ 16) with 65536; lia).
        apply Z.mod_pow2_bits_high. lia. }
  rewrite E, Z.shiftl_mul_pow2, Z.shiftr_div_pow2 by lia.
  pose proof (Z.pow_pos_nonneg 2 k ltac:(lia) ltac:(lia)).
  pose proof (Z.div_mod raw (2 ^ k) ltac:(lia)). lia.
Qed.

(** For a device of another family than 0x10, [parseTemperature] clears the
    [12 - r] low bits of the raw 16-bit value, [r] being the resolution that
    [GetResolution] reports at that moment, and divides by 16: the reading
    is a multiple of 1/2, 1/4, 1/8 or 1/16 degree. *)
Theorem parseTemperature_resolution_step d s0 s1 srest a0 arest :
  Ds18x20.scratch d = s0 :: s1 :: srest ->
  Ds18x20.Address d = a0 :: arest ->
  a0 <> 0x10 ->
  is_byte s0 -> is_byte s1 ->
  let raw := s0 + 256 * s1 in
  Ds18x20.parseTemperature d
  = Value (Ds18x20.set_Temperature d
             (float32_div16
                (float32_of_uint16
                   (raw - raw mod 2 ^ (12 - Ds18x20.GetResolution d))))).
Proof.
  intros Hs Ha Hfam H0 H1 raw.
  unfold Ds18x20.parseTemperature. rewrite Hs, Ha.
  change (index (s0 :: s1 :: srest) 0) with (Some s0).
  change (index (s0 :: s1 :: srest) 1) with (Some s1).
  change (index (a0 :: arest) 0) with (Some a0).
  cbn [of_index bind].
  apply Z.eqb_neq in Hfam. rewrite Hfam.
  rewrite raw_value by assumption. fold raw.
  assert (Hraw : 0 <= raw < 65536) by (unfold raw, is_byte in *; lia).
  assert (Hres : 9 <= Ds18x20.GetResolution d <= 12).
  { rewrite GetResolution_value.
    pose proof (Z.mod_pos_bound (Ds18x20.ConfigRegister d / 32) 4 ltac:(lia)).
    lia. }
  change 65528 with (Z.shiftl (Z.ones (16 - 3)) 3).
  change 65532 with (Z.shiftl (Z.ones (16 - 2)) 2).
  change 65534 with (Z.shiftl (Z.ones (16 - 1)) 1).
  rewrite !mask_low_bits by lia.
  destruct (Z.eqb_spec (Ds18x20.GetResolution d) 9) as [-> | H9];
    [reflexivity |].
  destruct (Z.eqb_spec (Ds18x20.GetResolution d) 10) as [-> | H10];
    [reflexivity |].
  destruct (Z.eqb_spec (Ds18x20.GetResolution d) 11) as [-> | H11];
    [reflexivity |].
  replace (Ds18x20.GetResolution d) with 12 by lia.
  cbn [bind]. change (2 ^ (12 - 12)) with 1. rewrite Z.mod_1_r, Z.sub_0_r.
  reflexivity.
Qed.

Lemma parseTemperature_resolution_step_witness :
  let d := Ds18x20.mk 2 [0x28; 0xff; 0x4b; 0x46; 0x7f; 0xff; 0x0c; 0x10]
             [0x57; 0x05; 0x4b; 0x46; 0x3f; 0xff; 0x0c; 0x10; 0x00] 0 0 0 0x3f in
  Ds18x20.GetResolution d = 10 /\
  Ds18x20.parseTemperature d
  = Value (Ds18x20.set_Temperature d
             (float32_div16 (float32_of_uint16 (1367 - 1367 mod 2 ^ (12 - 10))))).
Proof.
  intros d. split; [reflexivity |].
  apply (parseTemperature_resolution_step d 0x57 0x05
           [0x4b; 0x46; 0x3f; 0xff; 0x0c; 0x10; 0x00] 0x28
           [0xff; 0x4b; 0x46; 0x7f; 0xff; 0x0c; 0x10]);
    [reflexivity | reflexivity | discriminate
    | unfold is_byte; lia | unfold is_byte; lia].
Defined.

(** For the family 0x10, [parseTemperature] takes the whole degrees of the
    raw half-degree count and adds [12 - scratch[6]] sixteenths, in 16-bit
    arithmetic; the configuration register plays no part.  With a raw value
    below 8192 and a count that does not exceed the sum, nothing wraps. *)
Theorem parseTemperature_family_0x10 d s0 s1 s2 s3 s4 s5 s6 srest arest :
  Ds18x20.scratch d = s0 :: s1 :: s2 :: s3 :: s4 :: s5 :: s6 :: srest ->
  Ds18x20.Address d = 0x10 :: arest ->
  is_byte s0 -> is_byte s1 -> is_byte s6 ->
  let raw := s0 + 256 * s1 in
  let sixteenths := (16 * ((raw / 2) mod 4096) + 12 - s6) mod 65536 in
  Ds18x20.parseTemperature d
  = Value (Ds18x20.set_Temperature d
             (float32_div16 (float32_of_uint16 sixteenths))) /\
  (raw < 8192 -> s6 <= 16 * (raw / 2) + 12 ->
   sixteenths = 16 * (raw / 2) + 12 - s6).
Proof.
  intros Hs Ha H0 H1 H6 raw sixteenths.
  assert (Hraw : 0 <= raw < 65536) by (unfold raw, is_byte in *; lia).
  split.
  - unfold Ds18x20.parseTemperature. rewrite Hs, Ha.
    change (index (s0 :: s1 :: s2 :: s3 :: s4 :: s5 :: s6 :: srest) 0)
      with (Some s0).
    change (index (s0 :: s1 :: s2 :: s3 :: s4 :: s5 :: s6 :: srest) 1)
      with (Some s1).
    change (index (s0 :: s1 :: s2 :: s3 :: s4 :: s5 :: s6 :: srest) 6)
      with (Some s6).
    change (index (16 :: arest) 0) with (Some 16).
    cbn [of_index bind Z.eqb Pos.eqb].
    rewrite raw_value by assumption. fold raw.
    unfold Ds18x20.set_Temperature. cbn [Ds18x20.Temperature Ds18x20.Pin
      Ds18x20.Address Ds18x20.scratch Ds18x20.RegisterTh Ds18x20.RegisterTl
      Ds18x20.ConfigRegister].
    do 3 f_equal.
    unfold sub16, add16, shl16, sixteenths.
    rewrite Z.shiftl_mul_pow2 by lia. change (2 ^ 3) with 8.
    change 65520 with (Z.shiftl (Z.ones (16 - 4)) 4).
    rewrite mask_low_bits by (try apply Z.mod_pos_bound; lia).
    change (2 ^ 4) with 16.
    rewrite Zminus_mod_idemp_l.
    f_equal. Z.div_mod_to_equations. lia.
  - intros Hsmall Hcount. unfold sixteenths.
    assert (0 <= raw / 2 < 4096) by (Z.div_mod_to_equations; lia).
    rewrite (Z.mod_small (raw / 2)) by lia.
    unfold is_byte in H6. apply Z.mod_small. lia.
Qed.

Lemma parseTemperature_family_0x10_witness :
  let d := Ds18x20.mk 2 [0x10; 0xff; 0x4b; 0x46; 0x7f; 0xff; 0x0c; 0x10]
             [0x2b; 0x00; 0x4b; 0x46; 0xff; 0xff; 0x05; 0x10; 0x00] 0 0 0 0 in
  Ds18x20.parseTemperature d
  = Value (Ds18x20.set_Temperature d
             (float32_div16
                (float32_of_uint16 ((16 * ((43 / 2) mod 4096) + 12 - 5) mod 65536))))
  /\ (16 * ((43 / 2) mod 4096) + 12 - 5) mod 65536 = 16 * (43 / 2) + 12 - 5.
Proof.
  intros d.
  pose proof (parseTemperature_family_0x10 d 0x2b 0x00 0x4b 0x46 0xff 0xff 0x05
                [0x10; 0x00] [0xff; 0x4b; 0x46; 0x7f; 0xff; 0x0c; 0x10]
                eq_refl eq_refl
                ltac:(unfold is_byte; lia) ltac:(unfold is_byte; lia)
                ltac:(unfold is_byte; lia)) as [Hrun Hplain].
  split; [exact Hrun | apply Hplain; cbn; lia].
Defined.

(** [parseTemperature] writes [Temperature] and leaves every other field of
    the device as it was. *)
Theorem parseTemperature_other_fields d d1 :
  Ds18x20.parseTemperature d = Value d1 ->
  Ds18x20.Pin d1 = Ds18x20.Pin d /\
  Ds18x20.Address d1 = Ds18x20.Address d /\
  Ds18x20.scratch d1 = Ds18x20.scratch d /\
  Ds18x20.RegisterTh d1 = Ds18x20.RegisterTh d /\
  Ds18x20.RegisterTl d1 = Ds18x20.RegisterTl d /\
  Ds18x20.ConfigRegister d1 = Ds18x20.ConfigRegister d.
Proof.
  intros H. apply parseTemperature_frame in H. rewrite H.
  repeat split.
Qed.

Lemma parseTemperature_other_fields_witness :
  let d := Ds18x20.mk 2 [0x28; 0xff; 0x4b; 0x46; 0x7f; 0xff; 0x0c; 0x10]
             [0x50; 0x05; 0x4b; 0x46; 0x7f; 0xff; 0x0c; 0x10; 0x1c] 0 1 2 0x7f in
  let d1 := Ds18x20.set_Temperature d (float32_div16 (float32_of_uint16 0x0550)) in
  Ds18x20.parseTemperature d = Value d1 /\
  Ds18x20.ConfigRegister d1 = Ds18x20.ConfigRegister d.
Proof.
  intros d d1.
  assert (H : Ds18x20.parseTemperature d = Value d1) by reflexivity.
  split; [exact H |].
  exact (proj2 (proj2 (proj2 (proj2 (proj2
           (parseTemperature_other_fields d d1 H)))))).
Defined.

(** At 12 bits and for a raw value up to 0x7fff, a device of another family
    than 0x10 gets the temperature its two bytes stand for: the
    two's-complement number [s0 + 256 * s1], divided by 16. *)
Theorem parseTemperature_12bit_nonnegative d s0 s1 srest a0 arest :
  Ds18x20.scratch d = s0 :: s1 :: srest ->
  Ds18x20.Address d = a0 :: arest ->
  a0 <> 0x10 ->
  Ds18x20.GetResolution d = 12 ->
  is_byte s0 -> 0 <= s1 < 128 ->
  Ds18x20.parseTemperature d
  = Value (Ds18x20.set_Temperature d
             (float32_div16
                (float32_of_uint16 (signed16 (Z.lor s0 (shl16 s1 8)))))) /\
  signed16 (Z.lor s0 (shl16 s1 8)) = s0 + 256 * s1.
Proof.
  intros Hs Ha Hfam Hres H0 H1.
  destruct (raw_nonnegative_signed s0 s1 H0 H1) as [Hsigned Hraw].
  rewrite Hsigned. split; [| exact Hraw].
  apply (parseTemperature_12bit d s0 s1 srest a0 arest Hs Ha Hfam Hres).
Qed.

Lemma parseTemperature_12bit_nonnegative_witness :
  let d := Ds18x20.mk 2 [0x28; 0xff; 0x4b; 0x46; 0x7f; 0xff; 0x0c; 0x10]
             [0x91; 0x01; 0x4b; 0x46; 0x7f; 0xff; 0x0c; 0x10; 0x00] 0 0 0 0x7f in
  Ds18x20.parseTemperature d
  = Value (Ds18x20.set_Temperature d
             (float32_div16
                (float32_of_uint16 (signed16 (Z.lor 0x91 (shl16 0x01 8)))))) /\
  signed16 (Z.lor 0x91 (shl16 0x01 8)) = 0x91 + 256 * 0x01.
Proof.
  intros d.
  apply (parseTemperature_12bit_nonnegative d 0x91 0x01
           [0x4b; 0x46; 0x7f; 0xff; 0x0c; 0x10; 0x00] 0x28
           [0xff; 0x4b; 0x46; 0x7f; 0xff; 0x0c; 0x10]);
    [reflexivity | reflexivity | discriminate | reflexivity
    | unfold is_byte; lia | lia].
Defined.

(** * Reading the scratchpad *)

(** When the transport refuses the request, [ReadScratchPad] returns its
    error at once: the device is untouched and no reply is taken from the
    channel. *)
Theorem ReadScratchPad_transport_error K d c :
  FirmataClient.tx_down c = true ->
  Ds18x20.ReadScratchPad K d c
  = Value
      (Some TransportError, d,
       logged c (SysExOneWire K)
         (byte_of (OneWireRequest.Command (Ds18x20.scratchpad_request K d))
            :: Ds18x20.Pin d
            :: OneWireRequest.Encode K (Ds18x20.scratchpad_request K d))).
Proof.
  intros Hdown.
  unfold Ds18x20.ReadScratchPad, FirmataClient.OneWireCommand,
    FirmataClient.sendSysEx, logged.
  rewrite Hdown. reflexivity.
Qed.

Lemma ReadScratchPad_transport_error_witness :
  let c := FirmataClient.mk [] true true [read_reply [0x50; 0x05]] in
  exists c',
    Ds18x20.ReadScratchPad firmata fresh_ds18b20 c
    = Value (Some TransportError, fresh_ds18b20, c') /\
    FirmataClient.inbound c' = [read_reply [0x50; 0x05]].
Proof.
  intros c. eexists. split.
  - exact (ReadScratchPad_transport_error firmata fresh_ds18b20 c eq_refl).
  - reflexivity.
Defined.

Lemma parseTemperature_defined d s0 s1 s2 s3 s4 s5 s6 srest a0 arest :
  Ds18x20.scratch d = s0 :: s1 :: s2 :: s3 :: s4 :: s5 :: s6 :: srest ->
  Ds18x20.Address d = a0 :: arest ->
  exists t, Ds18x20.parseTemperature d = Value (Ds18x20.set_Temperature d t).
Proof.
  intros Hs Ha. unfold Ds18x20.parseTemperature. rewrite Hs, Ha.
  change (index (s0 :: s1 :: s2 :: s3 :: s4 :: s5 :: s6 :: srest) 0)
    with (Some s0).
  change (index (s0 :: s1 :: s2 :: s3 :: s4 :: s5 :: s6 :: srest) 1)
    with (Some s1).
  change (index (s0 :: s1 :: s2 :: s3 :: s4 :: s5 :: s6 :: srest) 6)
    with (Some s6).
  change (index (a0 :: arest) 0) with (Some a0).
  cbn [of_index bind].
  destruct (a0 =? 16); eexists; reflexivity.
Qed.

(** A nine-byte scratchpad with the right CRC is accepted: [scratch] holds
    it, [RegisterTh], [RegisterTl] and [ConfigRegister] are its bytes 2, 3
    and 4, pin and address stay, and the reply is taken from the channel. *)
Theorem ReadScratchPad_accepts K d c packed rest h0 h1
    s0 s1 s2 s3 s4 s5 s6 s7 crc a0 arest :
  FirmataClient.tx_down c = false ->
  FirmataClient.owChan c = true ->
  FirmataClient.inbound c = packed :: rest ->
  0 < Z.land (OneWireRequest.Command (Ds18x20.scratchpad_request K d)) 0x8 ->
  FirmataClient.parseOWResponse packed
  = Value (h0 :: h1 :: [s0; s1; s2; s3; s4; s5; s6; s7] ++ [crc]) ->
  OneWireCrc8 [s0; s1; s2; s3; s4; s5; s6; s7] = crc ->
  Ds18x20.Address d = a0 :: arest ->
  exists d' c',
    Ds18x20.ReadScratchPad K d c = Value (None, d', c') /\
    Ds18x20.scratch d' = [s0; s1; s2; s3; s4; s5; s6; s7; crc] /\
    Ds18x20.RegisterTh d' = s2 /\
    Ds18x20.RegisterTl d' = s3 /\
    Ds18x20.ConfigRegister d' = s4 /\
    Ds18x20.Pin d' = Ds18x20.Pin d /\
    Ds18x20.Address d' = Ds18x20.Address d /\
    FirmataClient.inbound c' = rest.
Proof.
  intros Hup Hchan Hin Hread Hparse Hcrc Haddr.
  unfold Ds18x20.ReadScratchPad.
  rewrite (OneWireCommand_read K c _ _ packed rest _ Hup Hchan Hin Hread Hparse).
  cbn [bind]. rewrite slice_from_header. cbn [of_index bind].
  cbn [Ds18x20.set_scratch Ds18x20.scratch].
  rewrite index_last, slice_to_last. cbn [of_index bind].
  apply Z.eqb_eq in Hcrc. rewrite Hcrc. cbn [negb app].
  fold (Ds18x20.set_scratch d [s0; s1; s2; s3; s4; s5; s6; s7; crc]).
  destruct (parseTemperature_defined
              (Ds18x20.set_scratch d [s0; s1; s2; s3; s4; s5; s6; s7; crc])
              s0 s1 s2 s3 s4 s5 s6 [s7; crc] a0 arest eq_refl Haddr)
    as [t Ht].
  rewrite Ht. cbn [bind].
  do 2 eexists. split; [reflexivity |].
  repeat split.
Qed.

Lemma ReadScratchPad_accepts_witness :
  exists d' c',
    Ds18x20.ReadScratchPad firmata fresh_ds18b20
      (fresh_client
         [read_reply [0x50; 0x05; 0x4b; 0x46; 0x7f; 0xff; 0x0c; 0x10; 0x1c]])
    = Value (None, d', c') /\
    Ds18x20.RegisterTh d' = 0x4b /\
    Ds18x20.RegisterTl d' = 0x46 /\
    Ds18x20.ConfigRegister d' = 0x7f.
Proof.
  destruct (ReadScratchPad_accepts firmata fresh_ds18b20
              (fresh_client
                 [read_reply [0x50; 0x05; 0x4b; 0x46; 0x7f; 0xff; 0x0c; 0x10; 0x1c]])
              (read_reply [0x50; 0x05; 0x4b; 0x46; 0x7f; 0xff; 0x0c; 0x10; 0x1c])
              [] 0x34 0x12 0x50 0x05 0x4b 0x46 0x7f 0xff 0x0c 0x10 0x1c
              0x28 [0xff; 0x4b; 0x46; 0x7f; 0xff; 0x0c; 0x10]
              eq_refl eq_refl eq_refl eq_refl eq_refl eq_refl eq_refl)
    as (d' & c' & Hrun & _ & Hth & Htl & Hcfg & _).
  exists d', c'. repeat split; assumption.
Defined.

(** A reply of fewer than three bytes makes [ReadScratchPad] panic: with
    fewer than two the slice [scratch[2:]] is out of range, with two the
    scratchpad is empty and has no last byte. *)
Theorem ReadScratchPad_short_reply K d c packed rest reply :
  FirmataClient.tx_down c = false ->
  FirmataClient.owChan c = true ->
  FirmataClient.inbound c = packed :: rest ->
  0 < Z.land (OneWireRequest.Command (Ds18x20.scratchpad_request K d)) 0x8 ->
  FirmataClient.parseOWResponse packed = Value reply ->
  (length reply <= 2)%nat ->
  Ds18x20.ReadScratchPad K d c = IndexPanic.
Proof.
  intros Hup Hchan Hin Hread Hparse Hlen.
  unfold Ds18x20.ReadScratchPad.
  rewrite (OneWireCommand_read K c _ _ packed rest _ Hup Hchan Hin Hread Hparse).
  cbn [bind].
  destruct reply as [| h0 [| h1 [| x reply]]]; try reflexivity.
  cbn [length] in Hlen. lia.
Qed.

Lemma ReadScratchPad_short_reply_witness :
  FirmataClient.parseOWResponse [0x43; 0x02; 0x34; 0x24; 0x00] = Value [0x34; 0x12] /\
  Ds18x20.ReadScratchPad firmata fresh_ds18b20
    (fresh_client [[0x43; 0x02; 0x34; 0x24; 0x00]])
  = IndexPanic.
Proof.
  split; [reflexivity |].
  apply (ReadScratchPad_short_reply firmata fresh_ds18b20
           (fresh_client [[0x43; 0x02; 0x34; 0x24; 0x00]])
           [0x43; 0x02; 0x34; 0x24; 0x00] [] [0x34; 0x12]);
    reflexivity.
Defined.

(** * Commands and the channel *)

(** [OneWireCommand] returns without touching the channel when the send
    fails or when the command has not the bit [0x8]: it gives no data, the
    result of the send, and leaves the pending replies where they are. *)
Lemma OneWireCommand_no_wait K c csPin req :
  FirmataClient.tx_down c = true \/ Z.land (OneWireRequest.Command req) 0x8 = 0 ->
  FirmataClient.OneWireCommand K c csPin req
  = Value
      ([], send_result c,
       logged c (SysExOneWire K)
         (byte_of (OneWireRequest.Command req) :: csPin
            :: OneWireRequest.Encode K req)).
Proof.
  intros H.
  unfold FirmataClient.OneWireCommand, FirmataClient.sendSysEx, send_result,
    logged.
  cbn [app].
  destruct (FirmataClient.tx_down c); [reflexivity |].
  destruct H as [H | H]; [discriminate H |].
  rewrite H. reflexivity.
Qed.

(** With no reply to come, [OneWireSearch] waits for ever, also when its
    send has failed: it does not look at the error before it waits.
    [OneWireCommand] with the bit [0x8] waits only after a send that went
    through. *)
Theorem no_reply_blocks K c csPin owSearchMode req :
  FirmataClient.inbound c = [] ->
  FirmataClient.OneWireSearch K c csPin owSearchMode = Blocked /\
  (0 < Z.land (OneWireRequest.Command req) 0x8 ->
   FirmataClient.tx_down c = false ->
   FirmataClient.OneWireCommand K c csPin req = Blocked).
Proof.
  intros Hin. split.
  - unfold FirmataClient.OneWireSearch, FirmataClient.sendSysEx,
      FirmataClient.receive.
    cbn [FirmataClient.owChan FirmataClient.inbound].
    rewrite Hin. destruct (FirmataClient.owChan c); reflexivity.
  - intros Hread Hup.
    unfold FirmataClient.OneWireCommand, FirmataClient.sendSysEx,
      FirmataClient.receive.
    cbn [FirmataClient.owChan FirmataClient.inbound].
    rewrite Hup, Hin. apply Z.ltb_lt in Hread. rewrite Hread.
    destruct (FirmataClient.owChan c); reflexivity.
Qed.

Lemma no_reply_blocks_witness :
  let down := FirmataClient.mk [] true true [] in
  let req := Ds18x20.scratchpad_request firmata fresh_ds18b20 in
  FirmataClient.OneWireSearch firmata down 2 0x40 = Blocked /\
  FirmataClient.OneWireCommand firmata (fresh_client []) 2 req = Blocked.
Proof.
  intros down req. split.
  - exact (proj1 (no_reply_blocks firmata down 2 0x40 req eq_refl)).
  - exact (proj2 (no_reply_blocks firmata (fresh_client []) 2 0x40 req eq_refl)
             eq_refl eq_refl).
Defined.

Lemma groups_of_8_shape k :
  forall data,
    (length data / 8 = k)%nat ->
    Forall (fun a => length a = 8%nat) (groups_of_8 data) /\
    length (groups_of_8 data) = k /\
    concat (groups_of_8 data) = firstn (8 * k) data.
Proof.
  induction k as [| k IH]; intros data Hk.
  - assert (Hshort : (length data < 8)%nat).
    { apply Nat.div_small_iff in Hk; lia. }
    rewrite groups_of_8_short by exact Hshort.
    repeat split. constructor.
  - assert (Hlong : (8 <= length data)%nat).
    { destruct (Nat.lt_ge_cases (length data) 8) as [Hlt | Hge]; [| exact Hge].
      rewrite Nat.div_small in Hk by exact Hlt. discriminate Hk. }
    assert (Hg : length (firstn 8 data) = 8%nat)
      by (rewrite length_firstn; lia).
    rewrite <- (firstn_skipn 8 data) at 1 2 3 4.
    rewrite groups_of_8_cons by exact Hg.
    destruct (IH (skipn 8 data)) as (Hall & Hlen & Hcat).
    { rewrite length_skipn.
      replace (length data) with (1 * 8 + (length data - 8))%nat in Hk by lia.
      rewrite Nat.div_add_l in Hk by lia. lia. }
    split; [constructor; assumption |].
    split; [cbn [length]; lia |].
    cbn [concat]. rewrite Hcat.
    replace (8 * S k)%nat with (length (firstn 8 data) + 8 * k)%nat by lia.
    rewrite firstn_app_2. reflexivity.
Qed.

(** Every address that [OneWireSearch] returns has eight bytes; there is one
    for each whole group of eight in the delivered buffer, and put end to
    end they are the buffer without its incomplete tail. *)
Theorem OneWireSearch_addresses K c csPin owSearchMode packed rest dataOut :
  FirmataClient.owChan c = true ->
  FirmataClient.inbound c = packed :: rest ->
  FirmataClient.parseOWResponse packed = Value dataOut ->
  exists addresses c',
    FirmataClient.OneWireSearch K c csPin owSearchMode
    = Value (addresses, send_result c, c') /\
    Forall (fun a => length a = 8%nat) addresses /\
    length addresses = (length dataOut / 8)%nat /\
    concat addresses = firstn (8 * (length dataOut / 8)) dataOut.
Proof.
  intros Hchan Hin Hparse.
  unfold FirmataClient.OneWireSearch, FirmataClient.sendSysEx,
    FirmataClient.receive.
  cbn [FirmataClient.owChan FirmataClient.inbound FirmataClient.tx_log
         FirmataClient.tx_down].
  rewrite Hchan, Hin, Hparse. cbn [bind].
  rewrite (search_loop_groups dataOut 0 [] []) by (cbn; lia).
  cbn [app]. do 2 eexists. split; [reflexivity |].
  apply groups_of_8_shape. reflexivity.
Qed.

Lemma OneWireSearch_addresses_witness :
  let reply := [0x28; 1; 2; 3; 4; 5; 6; 7; 0x10; 9; 10] in
  exists addresses c',
    FirmataClient.OneWireSearch firmata
      (fresh_client [0x42 :: 0x02 :: To7BitMulti reply]) 2 0x40
    = Value (addresses, None, c') /\
    Forall (fun a => length a = 8%nat) addresses /\
    length addresses = 1%nat.
Proof.
  intros reply.
  destruct (OneWireSearch_addresses firmata
              (fresh_client [0x42 :: 0x02 :: To7BitMulti reply]) 2 0x40
              (0x42 :: 0x02 :: To7BitMulti reply) [] reply
              eq_refl eq_refl eq_refl)
    as (addresses & c' & Hrun & Hall & Hlen & _).
  exists addresses, c'. repeat split; assumption.
Defined.

Lemma land_lor_zero a b c :
  Z.land a c = 0 -> Z.land b c = 0 -> Z.land (Z.lor a b) c = 0.
Proof.
  intros Ha Hb. rewrite Z.land_lor_distr_l, Ha, Hb. reflexivity.
Qed.

(** [ConvertT] sends one message and returns with the result of the send,
    without waiting.  With [all] set the command is RESET|SELECT|WRITE and
    the body is the packed address followed by 0x44 (this device alone);
    without it the command is RESET|SKIP|WRITE and the body is 0x44 packed,
    the two bytes 0x44, 0x00. *)
Theorem ConvertT_message K d c :
  write_bits_disjoint K ->
  Ds18x20.ConvertT K d c true
  = Value
      (send_result c,
       logged c (SysExOneWire K)
         (byte_of (Z.lor (Z.lor (OW_RESET K) (OW_SELECT K)) (OW_WRITE K))
            :: Ds18x20.Pin d :: To7BitMulti (Ds18x20.Address d ++ [0x44]))) /\
  Ds18x20.ConvertT K d c false
  = Value
      (send_result c,
       logged c (SysExOneWire K)
         (byte_of (Z.lor (Z.lor (OW_RESET K) (OW_SKIP K)) (OW_WRITE K))
            :: Ds18x20.Pin d :: [0x44; 0x00])).
Proof.
  intros ((HS & HW & HSR & HSD & HSW & HWR & HWD)
          & HRS & HRR & HRD & HRW & HKS & HKR & HKD & HKW
          & HR8 & HK8 & HS8 & HW8).
  assert (HWS : Z.land (OW_WRITE K) (OW_SELECT K) = 0)
    by (rewrite Z.land_comm; exact HSW).
  split.
  - unfold Ds18x20.ConvertT.
    cbn [OneWireRequest.zero OneWireRequest.Command OneWireRequest.Address
           OneWireRequest.ReadCount OneWireRequest.CorrelationId
           OneWireRequest.DelayMs OneWireRequest.Data].
    rewrite OneWireCommand_no_wait
      by (right; cbn [OneWireRequest.Command]; auto using land_lor_zero).
    cbn [bind OneWireRequest.Command]. do 4 f_equal.
    rewrite Encode_body. f_equal. unfold request_body.
    cbn [OneWireRequest.Command OneWireRequest.Address OneWireRequest.Data].
    rewrite (has_flag_lor_l _ _ _ HWS), (has_flag_lor_r _ _ _ HRS),
      (has_flag_self _ HS).
    rewrite (has_flag_lor_l _ _ _ HWR), (has_flag_lor_r _ _ _ HRR),
      (has_flag_disjoint _ _ HSR).
    rewrite (has_flag_lor_l _ _ _ HWD), (has_flag_lor_r _ _ _ HRD),
      (has_flag_disjoint _ _ HSD).
    rewrite (has_flag_lor_r _ _ _ (land_lor_zero _ _ _ HRW HSW)),
      (has_flag_self _ HW).
    reflexivity.
  - unfold Ds18x20.ConvertT.
    cbn [OneWireRequest.zero OneWireRequest.Command OneWireRequest.Address
           OneWireRequest.ReadCount OneWireRequest.CorrelationId
           OneWireRequest.DelayMs OneWireRequest.Data].
    rewrite OneWireCommand_no_wait
      by (right; cbn [OneWireRequest.Command]; auto using land_lor_zero).
    cbn [bind OneWireRequest.Command]. do 4 f_equal.
    rewrite Encode_body. unfold request_body.
    cbn [OneWireRequest.Command OneWireRequest.Address OneWireRequest.Data].
    rewrite (has_flag_lor_l _ _ _ HWS), (has_flag_lor_r _ _ _ HRS),
      (has_flag_disjoint _ _ HKS).
    rewrite (has_flag_lor_l _ _ _ HWR), (has_flag_lor_r _ _ _ HRR),
      (has_flag_disjoint _ _ HKR).
    rewrite (has_flag_lor_l _ _ _ HWD), (has_flag_lor_r _ _ _ HRD),
      (has_flag_disjoint _ _ HKD).
    rewrite (has_flag_lor_r _ _ _ (land_lor_zero _ _ _ HRW HKW)),
      (has_flag_self _ HW).
    reflexivity.
Qed.

Lemma firmata_write_bits_disjoint : write_bits_disjoint firmata.
Proof.
  unfold write_bits_disjoint, field_bits_disjoint. cbn. repeat split; lia.
Defined.

Lemma ConvertT_message_witness :
  write_bits_disjoint firmata /\
  Ds18x20.ConvertT firmata fresh_ds18b20 (fresh_client []) false
  = Value (None, logged (fresh_client []) 0x73 [0x23; 2; 0x44; 0x00]).
Proof.
  split; [exact firmata_write_bits_disjoint |].
  exact (proj2 (ConvertT_message firmata fresh_ds18b20 (fresh_client [])
                  firmata_write_bits_disjoint)).
Defined.
